(** * SoulBot: the conversation session logic of [final.py] / [soul.py]

    A shallow embedding of the context-window helpers ([truncate_message],
    [prepare_recent_history]), of the truncation heuristic
    ([_is_likely_truncated]) and of the reply loop ([generate_response]),
    together with the properties of the written specification that concern
    them.  Python values are modelled as follows:

    - [str] is a list of Unicode code points, so that [len], slicing and
      [endswith] count characters the way Python does;
    - a message dictionary is a record of its two optional keys;
    - exceptions are an explicit [result] type;
    - [st.session_state] and the model server are threaded explicitly. *)

From Stdlib Require Import String Ascii.
From Stdlib Require Import List ZArith NArith Bool Lia QArith.
From Equations Require Import Equations.
Import ListNotations.

Set Implicit Arguments.
Open Scope Z_scope.

(* ===================================================================== *)
(** * Python strings *)
(* ===================================================================== *)

Definition char := N.
Definition str := list char.

(** An ASCII literal as a Python string. *)
Definition lit (s : string) : str := map N_of_ascii (list_ascii_of_string s).

Definition len {A} (s : list A) : Z := Z.of_nat (length s).

Definition str_eqb (a b : str) : bool :=
  if list_eq_dec N.eq_dec a b then true else false.

(** [bool(s)] of a string: non-empty. *)
Definition truthy (s : str) : bool :=
  match s with [] => false | _ :: _ => true end.

(** [str.isspace] on one character, as CPython's [_PyUnicode_IsWhitespace]:
    the code points of bidirectional type WS, B or S, or of category Zs. *)
Definition isspace (c : char) : bool :=
  ((0x09 <=? c) && (c <=? 0x0D) ||
   (0x1C <=? c) && (c <=? 0x20) ||
   (c =? 0x85) || (c =? 0xA0) || (c =? 0x1680) ||
   (0x2000 <=? c) && (c <=? 0x200A) ||
   (c =? 0x2028) || (c =? 0x2029) || (c =? 0x202F) ||
   (c =? 0x205F) || (c =? 0x3000))%N.

Fixpoint lstrip (s : str) : str :=
  match s with
  | [] => []
  | c :: s' => if isspace c then lstrip s' else s
  end.

Definition rstrip (s : str) : str := rev (lstrip (rev s)).

Definition strip (s : str) : str := rstrip (lstrip s).

(** Python's clamping of a slice bound [i] for a sequence of length [n]. *)
Definition slice_bound (n i : Z) : nat :=
  Z.to_nat (if i <? 0 then Z.max 0 (i + n) else Z.min i n).

(** [s[i:]] and [s[:j]]. *)
Definition slice_from {A} (i : Z) (s : list A) : list A :=
  skipn (slice_bound (len s) i) s.

Definition slice_to {A} (j : Z) (s : list A) : list A :=
  firstn (slice_bound (len s) j) s.

(** [s.endswith(suffix)]. *)
Definition endswith (s suffix : str) : bool :=
  (length suffix <=? length s)%nat &&
  str_eqb (skipn (length s - length suffix) s) suffix.

(** [c in s] for a one-character [c]. *)
Definition char_in (c : char) (s : str) : bool := existsb (N.eqb c) s.

(* ===================================================================== *)
(** * Exceptions *)
(* ===================================================================== *)

Inductive exn := IndexError | KeyError.

Inductive result (A : Type) :=
| Val (a : A)
| Exn (e : exn).
Arguments Val {A} a.
Arguments Exn {A} e.

Definition bind {A B} (r : result A) (k : A -> result B) : result B :=
  match r with
  | Val a => k a
  | Exn e => Exn e
  end.

Notation "x <- r ;; k" := (bind r (fun x => k))
  (at level 100, r at next level, right associativity).

(** [s[i]]: a negative index counts from the end; out of range raises. *)
Definition getitem (s : str) (i : Z) : result char :=
  let j := if i <? 0 then i + len s else i in
  if (j <? 0) || (len s <=? j) then Exn IndexError
  else match nth_error s (Z.to_nat j) with
       | Some c => Val c
       | None => Exn IndexError
       end.

(* ===================================================================== *)
(** * Configuration *)
(* ===================================================================== *)

Definition MAX_CHAT_CONTEXT_HISTORY : Z := 6.
Definition FAST_CHAT_TOKENS : Z := 120.
Definition MAX_MESSAGE_CHARS : Z := 800.

(* ===================================================================== *)
(** * Messages *)
(* ===================================================================== *)

(** A message dictionary: the keys ['role'] and ['content'], each present
    or not. *)
Record dict := mk_dict { d_role : option str; d_content : option str }.

(** [m.get(key, default)]. *)
Definition get (field : option str) (default : str) : str :=
  match field with
  | Some v => v
  | None => default
  end.

(** The literal [{"role": r, "content": c}]. *)
Definition message (r c : str) : dict := mk_dict (Some r) (Some c).

Definition role_user : str := lit "user".
Definition role_assistant : str := lit "assistant".
Definition role_system : str := lit "system".

(** [soul.py]: the identity message inserted at index 0 when the
    application starts. *)
Definition SOULBOT_SYSTEM_MESSAGE : dict :=
  message role_system
    (lit "You are SoulBot " ++ [0x2014%N] ++ lit " an AI emotional wellness companion. "
     ++ lit "Your name is always 'SoulBot'. If the user asks your name, who you are, or what you are, reply EXACTLY: "
     ++ [0x22%N] ++ lit "I'm SoulBot " ++ [0x2014%N]
     ++ lit " your AI emotional wellness companion." ++ [0x22%N] ++ lit " "
     ++ lit "Speak gently, supportively, and warmly.").

(* ===================================================================== *)
(** * Helpers: truncate and prepare messages *)
(* ===================================================================== *)

(** The number of characters kept at each end of a long message. *)
Definition HALF : nat := Z.to_nat (MAX_MESSAGE_CHARS / 2 - 10).

Definition ELLIPSIS_MARKER : str := [0x0A%N] ++ lit "..." ++ [0x0A%N].

Definition truncate_message (msg : str) (max_chars : Z) : str :=
  if len msg <=? max_chars then msg
  else
    let head := slice_to (max_chars / 2 - 10) msg in
    let tail := slice_from (- (max_chars / 2 - 10)) msg in
    head ++ ELLIPSIS_MARKER ++ tail.

Definition prepare_recent_history (history : list dict) (max_items : Z)
  : list dict :=
  let recent := slice_from (- max_items) history in
  map (fun m => message (get (d_role m) role_user)
                        (truncate_message (get (d_content m) []) MAX_MESSAGE_CHARS))
      recent.

(* ===================================================================== *)
(** * The truncation heuristic *)
(* ===================================================================== *)

(** The characters of the literal tested by [s[-1] not in ...]: full stop,
    exclamation and question marks, the two ASCII quotes and U+201D (three
    times in the source). *)
Definition SENTENCE_FINAL : str :=
  lit ".!?" ++ [0x22; 0x27; 0x201D; 0x201D; 0x201D]%N.

Definition CLOSING_BRACKETS : str := lit ")]}".

Definition _is_likely_truncated (text : str) : result bool :=
  if negb (truthy text) || (len text <? 30) then Val false
  else
    let s := strip text in
    if endswith s (lit "...") || endswith s [0x2026%N] then Val true
    else
      last <- getitem s (-1) ;;
      if negb (char_in last SENTENCE_FINAL) then
        (last' <- getitem s (-1) ;;
         if char_in last' CLOSING_BRACKETS then Val false else Val true)
      else Val false.

(* ===================================================================== *)
(** * Generation options *)
(* ===================================================================== *)

(** An options dictionary, in insertion order. *)
Definition options := list (string * Q).

Definition opt_mem (k : string) (o : options) : bool :=
  existsb (fun kv => String.eqb (fst kv) k) o.

(** [o[k] = v]. *)
Fixpoint opt_set (k : string) (v : Q) (o : options) : options :=
  match o with
  | [] => [(k, v)]
  | (k', v') :: o' =>
      if String.eqb k' k then (k', v) :: o' else (k', v') :: opt_set k v o'
  end.

(** [o.update(u)]. *)
Definition opt_update (o u : options) : options :=
  fold_left (fun acc kv => opt_set (fst kv) (snd kv) acc) u o.

Definition OLLAMA_BASE_OPTIONS : options :=
  [("num_ctx", inject_Z 2048); ("temperature", 7 # 10);
   ("top_p", 9 # 10); ("mirostat", inject_Z 0)]%string.

(* ===================================================================== *)
(** * The model server and the session state *)
(* ===================================================================== *)

(** What [ollama.chat] does: it answers with generated text, or raises an
    exception [e]; [what] is [str(e)]. *)
Inductive chat_outcome :=
| Replies (content : str)
| Raises (what : str).

(** What [ollama_chat] returns: the server's response, or the dictionary
    [{"error": str(e)}]. *)
Inductive resp :=
| ChatResponse (content : str)
| ErrorDict (error : str).

(** [isinstance(resp, dict) and resp.get("error")], as a truth value. *)
Definition is_error (r : resp) : bool :=
  match r with
  | ErrorDict e => truthy e
  | ChatResponse _ => false
  end.

(** [resp['error']]. *)
Definition resp_error (r : resp) : result str :=
  match r with
  | ErrorDict e => Val e
  | ChatResponse _ => Exn KeyError
  end.

(** [resp['message']['content']]: the error dictionary has no ['message']. *)
Definition message_content (r : resp) : result str :=
  match r with
  | ChatResponse c => Val c
  | ErrorDict _ => Exn KeyError
  end.

Definition OFFLINE_NOTICE : str :=
  lit "Ollama is offline. Please start the server.".

Definition cont_prompt : str :=
  lit "Please continue the previous response only, and finish the remaining content.If the previous response was complete, respond with nothing.".

Definition primary_options : options :=
  [("num_predict", inject_Z (Z.max FAST_CHAT_TOKENS 240)); ("temperature", 6 # 10);
   ("top_p", 85 # 100); ("mirostat", inject_Z 0)]%string.

Definition cont_options : options :=
  [("num_predict", inject_Z 160); ("temperature", 6 # 10)]%string.

(** [st.session_state] together with the server; [requests] records the
    calls made to [ollama.chat], oldest first. *)
Record world (Server : Type) := mk_world {
  ollama_available : bool;
  conversation_history : list dict;
  server : Server;
  requests : list (list dict * option options)
}.

(** [st.session_state['conversation_history'].append(m)]. *)
Definition history_append {Server} (m : dict) (w : world Server) : world Server :=
  mk_world (ollama_available w) (conversation_history w ++ [m])
           (server w) (requests w).

(** The server answered (or failed) a request: its new state is kept and
    the request is recorded. *)
Definition served {Server} (w : world Server) (rq : list dict * option options)
           (sv : Server) : world Server :=
  mk_world (ollama_available w) (conversation_history w) sv (requests w ++ [rq]).

(** The options [ollama_chat] of [final.py] sends: the base options,
    updated with the call's own, with [num_predict] defaulted. *)
Definition chat_options (opts : option options) : options :=
  let opt := OLLAMA_BASE_OPTIONS in
  let opt := match opts with
             | Some ((_ :: _) as o) => opt_update opt o
             | _ => opt
             end in
  if negb (opt_mem "num_predict" opt)
  then opt_set "num_predict" (inject_Z FAST_CHAT_TOKENS) opt
  else opt.

Section Session.

(** The server is any state machine answering chat requests:
    [ollama.chat(model=FAST_MODEL, messages=..., options=...)]. *)
Variable Server : Type.
Variable api_chat :
  Server -> list dict -> option options -> chat_outcome * Server.

Definition ollama_chat (messages : list dict) (opts : option options)
           (w : world Server) : resp * world Server :=
  let opt := chat_options opts in
  let '(out, sv) := api_chat (server w) messages (Some opt) in
  match out with
  | Replies c => (ChatResponse c, served w (messages, Some opt) sv)
  | Raises e => (ErrorDict e, served w (messages, Some opt) sv)
  end.

(** One pass through the body of the [while] loop of [generate_response],
    after [attempts += 1]. *)
Inductive body_exit :=
| Break (w : world Server)
| Raise (e : exn) (w : world Server)
| Next (ai_response : str) (w : world Server).

Definition continuation_body (recent_history : list dict) (ai_response : str)
           (w : world Server) : body_exit :=
  let '(cont_resp, w') :=
    ollama_chat (recent_history ++ [message role_user cont_prompt])
                (Some cont_options) w in
  if is_error cont_resp then Break w'
  else
    match message_content cont_resp with
    | Exn e => Raise e w'
    | Val cont_text =>
        if truthy cont_text && truthy (strip cont_text)
        then Next (rstrip ai_response ++ lit " " ++ lstrip cont_text) w'
        else Break w'
    end.

(** The state in which a pass through the body leaves the world. *)
Definition exit_world (x : body_exit) : world Server :=
  match x with
  | Break w => w
  | Raise _ w => w
  | Next _ w => w
  end.

(** [while _is_likely_truncated(ai_response) and attempts < 2: ...],
    terminating because [attempts] grows towards 2. *)
Equations? continuation_loop (recent_history : list dict) (ai_response : str)
           (attempts : nat) (w : world Server) : result str * world Server
  by wf (2 - attempts)%nat lt :=
  continuation_loop rh ai attempts w with _is_likely_truncated ai := {
    | Exn e := (Exn e, w);
    | Val false := (Val ai, w);
    | Val true with lt_dec attempts 2 := {
      | right _ := (Val ai, w);
      | left _ with continuation_body rh ai w := {
        | Break w' := (Val ai, w');
        | Raise e w' := (Exn e, w');
        | Next ai' w' := continuation_loop rh ai' (S attempts) w' } } }.
Proof. destruct attempts as [|[|n]]; simpl; lia. Qed.

Definition generate_response (user_input : str) (w : world Server)
  : result str * world Server :=
  if negb (ollama_available w) then (Val OFFLINE_NOTICE, w)
  else
    let w := history_append (message role_user user_input) w in
    let recent_history :=
      prepare_recent_history (conversation_history w) MAX_CHAT_CONTEXT_HISTORY in
    let '(resp, w) := ollama_chat recent_history (Some primary_options) w in
    if is_error resp then
      match resp_error resp with
      | Val e => (Val (lit "Error: " ++ e), w)
      | Exn x => (Exn x, w)
      end
    else
      match message_content resp with
      | Exn x => (Exn x, w)
      | Val ai_response =>
          match continuation_loop recent_history ai_response 0 w with
          | (Exn x, w) => (Exn x, w)
          | (Val ai_response, w) =>
              (Val ai_response,
               history_append (message role_assistant ai_response) w)
          end
      end.

End Session.

(** ** [advanced.py]: the variant without truncation and continuation *)

Module Advanced.
Section Session.

Variable Server : Type.
Variable api_chat :
  Server -> list dict -> option options -> chat_outcome * Server.

Definition ollama_chat (messages : list dict) (opts : option options)
           (w : world Server) : resp * world Server :=
  let sent := match opts with
              | Some ((_ :: _) as o) => Some o
              | _ => None
              end in
  let '(out, sv) := api_chat (server w) messages sent in
  match out with
  | Replies c => (ChatResponse c, served w (messages, sent) sv)
  | Raises e => (ErrorDict e, served w (messages, sent) sv)
  end.

Definition generate_response (user_input : str) (w : world Server)
  : result str * world Server :=
  if negb (ollama_available w) then (Val OFFLINE_NOTICE, w)
  else
    let w := history_append (message role_user user_input) w in
    let recent_history :=
      slice_from (- MAX_CHAT_CONTEXT_HISTORY) (conversation_history w) in
    let '(resp, w) := ollama_chat recent_history None w in
    if is_error resp then
      match resp_error resp with
      | Val e => (Val (lit "Error: " ++ e), w)
      | Exn x => (Exn x, w)
      end
    else
      match message_content resp with
      | Exn x => (Exn x, w)
      | Val ai_response =>
          (Val ai_response,
           history_append (message role_assistant ai_response) w)
      end.

End Session.
End Advanced.

(** ** Sequences of turns *)

(** The request [generate_response] of [final.py] sends first. *)
Definition primary_request (user_input : str) (history : list dict)
  : list dict * option options :=
  (prepare_recent_history (history ++ [message role_user user_input])
                          MAX_CHAT_CONTEXT_HISTORY,
   Some (chat_options (Some primary_options))).

(** The request [generate_response] of [advanced.py] sends. *)
Definition advanced_request (user_input : str) (history : list dict)
  : list dict * option options :=
  (slice_from (- MAX_CHAT_CONTEXT_HISTORY)
              (history ++ [message role_user user_input]),
   None).

(** The request each continuation attempt sends. *)
Definition continuation_request (recent_history : list dict)
  : list dict * option options :=
  (recent_history ++ [message role_user cont_prompt],
   Some (chat_options (Some cont_options))).

Section Turns.

Variable Server : Type.
Variable api_chat :
  Server -> list dict -> option options -> chat_outcome * Server.
(** The first request a variant sends for an input and a log, and its
    [generate_response]. *)
Variable first_request : str -> list dict -> list dict * option options.
Variable generate : str -> world Server -> result str * world Server.

(** A call succeeded when the server was believed available, it answered
    the first request, and the call returned. *)
Definition successful (user_input reply : str) (w w' : world Server) : Prop :=
  ollama_available w = true /\
  (exists c,
      let rq := first_request user_input (conversation_history w) in
      fst (api_chat (server w) (fst rq) (snd rq)) = Replies c) /\
  generate user_input w = (Val reply, w').

(** [turns w t w']: the calls listed in [t], with their replies, all
    succeeded, one after the other, and led from [w] to [w']. *)
Inductive turns : world Server -> list (str * str) -> world Server -> Prop :=
| turns_nil w : turns w [] w
| turns_cons w user_input reply w1 t w2 :
    successful user_input reply w w1 ->
    turns w1 t w2 ->
    turns w ((user_input, reply) :: t) w2.

(** The calls listed, whatever their outcome. *)
Definition run (inputs : list str) (w : world Server) : world Server :=
  fold_left (fun w i => snd (generate i w)) inputs w.

End Turns.

(** The two messages a turn records. *)
Definition turn_messages (t : str * str) : list dict :=
  [message role_user (fst t); message role_assistant (snd t)].

(** ** A scripted server, for examples *)

(** It answers the successive requests with the listed outcomes and
    refuses once the script is exhausted. *)
Definition scripted (s : list chat_outcome) (_ : list dict)
           (_ : option options) : chat_outcome * list chat_outcome :=
  match s with
  | [] => (Raises (lit "connection refused"), [])
  | o :: s' => (o, s')
  end.

Definition fresh (script : list chat_outcome) (history : list dict)
  : world (list chat_outcome) :=
  mk_world true history script [].

(** The input and the replies of the specification's scenarios. *)
Definition ANXIOUS : str := lit "I feel anxious".

Definition COMPLETE_REPLY : str :=
  lit "You are not alone in feeling this way, and it's okay to feel anxious sometimes.".

Definition UNFINISHED_REPLY : str :=
  lit "Take a deep breath and remember that this feeling will pass, just like clouds drifting across the sky and eventually giving way to".

(** A log of seven messages: the identity message and three exchanges. *)
Definition SEVEN_MESSAGES : list dict :=
  [SOULBOT_SYSTEM_MESSAGE;
   message role_user (lit "I feel anxious");
   message role_assistant (lit "That sounds hard.");
   message role_user (lit "I cannot sleep");
   message role_assistant (lit "Let us slow down.");
   message role_user (lit "How?");
   message role_assistant (lit "Breathe with me.")].

(** [m['role'] == 'system'], on a message of a prepared window. *)
Definition is_system (m : dict) : bool :=
  str_eqb (get (d_role m) role_user) role_system.

(** [o.get(k)] on an options dictionary. *)
Fixpoint opt_get (k : string) (o : options) : option Q :=
  match o with
  | [] => None
  | (k', v) :: o' => if String.eqb k' k then Some v else opt_get k o'
  end.

(** A server that answers one request with the given text when it is up,
    goes down, and once down refuses every request. *)
Definition one_shot (reply : str) (up : bool) (_ : list dict)
           (_ : option options) : chat_outcome * bool :=
  if up then (Replies reply, false)
  else (Raises (lit "connection refused"), false).

(** What [prepare_recent_history] makes of one message. *)
Definition prepared (m : dict) : dict :=
  message (get (d_role m) role_user)
          (truncate_message (get (d_content m) []) MAX_MESSAGE_CHARS).

(* ===================================================================== *)
(** * The tools of [final.py]: affirmation, meditation, CBT, journal,
      badges *)
(* ===================================================================== *)

Definition MAX_AFFIRMATION_TOKENS : Z := 60.
Definition MAX_MEDITATION_TOKENS : Z := 300.

(** [st.session_state['badge_progress']]. *)
Record badge_progress := mk_progress {
  sessions : Z;
  affirmations : Z;
  journals : Z
}.

(** A journal entry [{"timestamp": ..., "text": ...}]. *)
Record journal_entry := mk_entry { timestamp : str; text : str }.

(** [journals.json]: absent, unreadable as JSON, or holding the list that
    was last dumped into it. *)
Inductive journal_file_state :=
| NoFile
| Unreadable
| Dumped (journals : list journal_entry).

(** The whole application state: the chat state with the server, the badge
    counters, the journal in memory and the journal file. *)
Record app_state (Server : Type) := mk_app {
  chat : world Server;
  badge : badge_progress;
  journal_entries : list journal_entry;
  journal_file : journal_file_state
}.

Definition load_journals (f : journal_file_state) : list journal_entry :=
  match f with
  | Dumped journals => journals
  | Unreadable => []
  | NoFile => []
  end.

Definition save_journals {Server} (journals : list journal_entry)
           (a : app_state Server) : app_state Server :=
  mk_app (chat a) (badge a) (journal_entries a) (Dumped journals).

(** [save_journal(text)]; [now] is the clock's reading, formatted by
    [strftime("%Y-%m-%d %H:%M")]. *)
Definition save_journal {Server} (now text : str) (a : app_state Server)
  : app_state Server :=
  let entry := mk_entry now text in
  let a := mk_app (chat a) (badge a) (journal_entries a ++ [entry])
                  (journal_file a) in
  let p := badge a in
  let a := mk_app (chat a)
                  (mk_progress (sessions p) (affirmations p) (journals p + 1))
                  (journal_entries a) (journal_file a) in
  save_journals (journal_entries a) a.

Definition BADGE_CALM : str := [0x1F331%N] ++ lit " Calm Starter".
Definition BADGE_POSITIVE : str := [0x2728%N] ++ lit " Positive Soul".
Definition BADGE_REFLECTIVE : str := [0x1F4D8%N] ++ lit " Reflective Thinker".

Definition get_badges (p : badge_progress) : list str :=
  let badges := [] in
  let badges := if 3 <=? sessions p then badges ++ [BADGE_CALM] else badges in
  let badges := if 5 <=? affirmations p then badges ++ [BADGE_POSITIVE]
                else badges in
  let badges := if 3 <=? journals p then badges ++ [BADGE_REFLECTIVE]
                else badges in
  badges.

Definition AFFIRMATION_PROMPT : str :=
  lit "Give one short positive affirmation only.".

Definition MEDITATION_PROMPT : str :=
  lit "Give a calming 2-minute meditation script. Keep it concise and easy to read.".

(** The two parts of the CBT prompt, around the user's thought. *)
Definition CBT_PROMPT_HEAD : str :=
  [0x0A%N] ++ lit "You are a CBT assistant." ++ [0x0A%N]
  ++ lit "User's negative thought: " ++ [0x22%N].

Definition CBT_PROMPT_TAIL : str :=
  [0x22; 0x0A; 0x0A]%N
  ++ lit "Identify the cognitive distortion and reframe it." ++ [0x0A; 0x0A]%N
  ++ lit "Format:" ++ [0x0A%N]
  ++ lit "Distortion: <type>" ++ [0x0A%N]
  ++ lit "Reframed Thought: <new thought>" ++ [0x0A%N].

Section Tools.

Variable Server : Type.
Variable api_chat :
  Server -> list dict -> option options -> chat_outcome * Server.

Definition with_chat (a : app_state Server) (w : world Server) : app_state Server :=
  mk_app w (badge a) (journal_entries a) (journal_file a).

Definition generate_affirmation (a : app_state Server) : result str * app_state Server :=
  let prompt := AFFIRMATION_PROMPT in
  let '(resp, w) :=
    ollama_chat api_chat [message role_user prompt]
      (Some [("num_predict", inject_Z MAX_AFFIRMATION_TOKENS);
             ("temperature", 5 # 10)]%string)
      (chat a) in
  let a := with_chat a w in
  if is_error resp then
    (Val (lit "Could not generate affirmation right now."), a)
  else
    let p := badge a in
    let a := mk_app (chat a)
                    (mk_progress (sessions p) (affirmations p + 1) (journals p))
                    (journal_entries a) (journal_file a) in
    (message_content resp, a).

Definition generate_meditation (a : app_state Server) : result str * app_state Server :=
  let prompt := MEDITATION_PROMPT in
  let '(resp, w) :=
    ollama_chat api_chat [message role_user prompt]
      (Some [("num_predict", inject_Z MAX_MEDITATION_TOKENS);
             ("temperature", 55 # 100)]%string)
      (chat a) in
  let a := with_chat a w in
  if is_error resp then
    (Val (lit "Could not generate meditation right now."), a)
  else (message_content resp, a).

Definition cbt_fix (thought : str) (a : app_state Server) : result str * app_state Server :=
  let prompt :=
    CBT_PROMPT_HEAD ++ truncate_message thought 600 ++ CBT_PROMPT_TAIL in
  let '(resp, w) :=
    ollama_chat api_chat [message role_user prompt]
      (Some [("num_predict", inject_Z 120)]%string)
      (chat a) in
  let a := with_chat a w in
  if is_error resp then (Val (lit "CBT tool unavailable."), a)
  else (message_content resp, a).

(** [n] presses of the affirmation button, one after the other, whatever
    each returns. *)
Fixpoint affirmation_presses (n : nat) (a : app_state Server) : app_state Server :=
  match n with
  | O => a
  | S n' => affirmation_presses n' (snd (generate_affirmation a))
  end.

End Tools.

(** The journal entries saved one after the other, each with the clock's
    reading when it was saved. *)
Definition save_all {Server} (saves : list (str * str)) (a : app_state Server)
  : app_state Server :=
  fold_left (fun a s => save_journal (fst s) (snd s) a) saves a.

(** ** [nayana.py] *)

Module Nayana.
Section Session.

Variable Server : Type.
Variable api_chat :
  Server -> list dict -> option options -> chat_outcome * Server.

Definition OFFLINE_NOTICE : str :=
  lit "Sorry, I can't connect to my AI brain right now. Please ensure Ollama is running.".

Definition generate_response (user_input : str) (w : world Server)
  : result str * world Server :=
  if negb (ollama_available w) then (Val OFFLINE_NOTICE, w)
  else
    let w := history_append (message role_user user_input) w in
    let messages := conversation_history w in
    let '(out, sv) := api_chat (server w) messages None in
    let w := served w (messages, None) sv in
    match out with
    | Replies ai_response =>
        (Val ai_response,
         history_append (message role_assistant ai_response) w)
    | Raises e =>
        (Val (lit "An error occurred during response generation: " ++ e), w)
    end.

End Session.
End Nayana.

(* ===================================================================== *)
(** * Emotion detection *)
(* ===================================================================== *)

Definition NL : str := [0x0A%N].

Definition quoted (s : string) : str := [0x22%N] ++ lit s ++ [0x22%N].

(** The two parts of the classifier's prompt, around the user's text. *)
Definition EMOTION_PROMPT_HEAD : str :=
  NL ++ lit "You are an emotion classifier." ++ NL
  ++ lit "Analyze the user's message and return ONLY valid JSON." ++ NL ++ NL
  ++ lit "Format:" ++ NL
  ++ lit "{" ++ NL
  ++ lit "    " ++ quoted "emotion" ++ lit ": "
  ++ quoted "happy" ++ lit " | " ++ quoted "sad" ++ lit " | "
  ++ quoted "angry" ++ lit " | " ++ quoted "anxious" ++ lit " | "
  ++ quoted "neutral" ++ lit " | " ++ quoted "stressed" ++ lit " | "
  ++ quoted "excited" ++ lit " | " ++ quoted "tired" ++ NL
  ++ lit "}" ++ NL ++ NL
  ++ lit "User message: " ++ [0x22%N].

Definition EMOTION_PROMPT_TAIL : str :=
  [0x22%N] ++ NL ++ NL ++ lit "Return JSON only." ++ NL.

(** The labels scanned for, in the order of the source. *)
Definition EMOTIONS : list str :=
  [lit "happy"; lit "sad"; lit "angry"; lit "anxious"; lit "neutral";
   lit "stressed"; lit "excited"; lit "tired"].

(** The line boundaries of [str.splitlines]. *)
Definition is_linebreak (c : char) : bool :=
  ((0x0A <=? c) && (c <=? 0x0D) || (0x1C <=? c) && (c <=? 0x1E) ||
   (c =? 0x85) || (c =? 0x2028) || (c =? 0x2029))%N.

Fixpoint until_linebreak (s : str) : str :=
  match s with
  | [] => []
  | c :: s' => if is_linebreak c then [] else c :: until_linebreak s'
  end.

(** [s.splitlines()[0]]: the empty string has no line. *)
Definition first_line (s : str) : result str :=
  match s with
  | [] => Exn IndexError
  | _ :: _ => Val (until_linebreak s)
  end.

Fixpoint starts_with (p s : str) : bool :=
  match p, s with
  | [], _ => true
  | _ :: _, [] => false
  | a :: p', b :: s' => (a =? b)%N && starts_with p' s'
  end.

(** [needle in hay]. *)
Fixpoint contains (needle hay : str) : bool :=
  starts_with needle hay ||
  match hay with
  | [] => false
  | _ :: hay' => contains needle hay'
  end.

(** The suffix of [s] that starts at the first [c], empty without one. *)
Fixpoint from_first (c : char) (s : str) : str :=
  match s with
  | [] => []
  | x :: s' => if (x =? c)%N then s else from_first c s'
  end.

(** [re.search(r"\{.*\}", raw, re.DOTALL)]: from the first opening brace
    to the last closing brace after it, if there is one. *)
Definition brace_match (raw : str) : option str :=
  match from_first 0x7B%N raw with
  | [] => None
  | open :: rest =>
      if char_in 0x7D%N rest
      then Some (rev (from_first 0x7D%N (rev (open :: rest))))
      else None
  end.

(** The first label of the list found in the token, [neutral] without
    one. *)
Fixpoint scan_labels (labels : list str) (token : str) : str :=
  match labels with
  | [] => lit "neutral"
  | e :: labels' => if contains e token then e else scan_labels labels' token
  end.

Section Classifier.

Variable Server : Type.
Variable api_chat :
  Server -> list dict -> option options -> chat_outcome * Server.

(** Python values, with the strings among them. *)
Variable value : Type.
Variable of_str : str -> value.
(** [json.loads(s)] followed by [.get("emotion", "neutral")]: the value
    found, or nothing when either step raises. *)
Variable json_emotion : str -> option value.
(** [str.lower]. *)
Variable lower : str -> str.

Definition detect_emotion (user_text : str) (w : world Server)
  : result value * world Server :=
  let prompt :=
    EMOTION_PROMPT_HEAD ++ truncate_message user_text 600
    ++ EMOTION_PROMPT_TAIL in
  let '(resp, w) :=
    ollama_chat api_chat [message role_user prompt]
                (Some [("num_predict", inject_Z 30)]%string) w in
  if is_error resp then (Val (of_str (lit "neutral")), w)
  else
    match message_content resp with
    | Exn x => (Exn x, w)
    | Val content =>
        let raw := strip content in
        let parsed :=
          match brace_match raw with
          | Some json_str => json_emotion json_str
          | None => None
          end in
        match parsed with
        | Some v => (Val v, w)
        | None =>
            (line <- first_line raw ;;
             let token := lower (strip line) in
             Val (of_str (scan_labels EMOTIONS token)), w)
        end
    end.

(** [final.py], the chat tab: what the message typed sets off; nothing
    happens on an empty one. *)
Definition chat_submit (user_message : str) (a : app_state Server)
  : result (option (value * str)) * app_state Server :=
  if truthy user_message then
    let p := badge a in
    let a := mk_app (chat a)
                    (mk_progress (sessions p + 1) (affirmations p) (journals p))
                    (journal_entries a) (journal_file a) in
    match detect_emotion user_message (chat a) with
    | (Exn x, w) => (Exn x, with_chat a w)
    | (Val emotion, w) =>
        match generate_response api_chat user_message w with
        | (Exn x, w) => (Exn x, with_chat a w)
        | (Val reply, w) => (Val (Some (emotion, reply)), with_chat a w)
        end
    end
  else (Val None, a).

End Classifier.

(** [str.lower] on the ASCII letters, other characters left alone: the
    instance used in the examples. *)
Definition ascii_lower (s : str) : str :=
  map (fun c => if ((0x41 <=? c) && (c <=? 0x5A))%N then (c + 32)%N else c) s.

(** The request of the classifier for a text. *)
Definition emotion_request (user_text : str) : list dict * option options :=
  ([message role_user
            (EMOTION_PROMPT_HEAD ++ truncate_message user_text 600
             ++ EMOTION_PROMPT_TAIL)],
   Some (chat_options (Some [("num_predict", inject_Z 30)]%string))).

(* ===================================================================== *)
(** * Strings: slicing and stripping *)
(* ===================================================================== *)

Lemma len_app {A} (a b : list A) : len (a ++ b) = len a + len b.
Proof. unfold len. rewrite length_app. lia. Qed.

Lemma len_nonneg {A} (s : list A) : 0 <= len s.
Proof. unfold len. lia. Qed.

(** [s[-k:]] keeps the last [k] elements when there are that many. *)
Lemma slice_from_last {A} (k : Z) (s : list A) :
  0 < k <= len s ->
  slice_from (- k) s = skipn (length s - Z.to_nat k) s.
Proof.
  intros H. unfold slice_from, slice_bound.
  destruct (Z.ltb_spec (- k) 0) as [_|Hk]; [|lia].
  f_equal. unfold len in *. lia.
Qed.

(** [s[-k:]] is the whole of a shorter sequence. *)
Lemma slice_from_short {A} (k : Z) (s : list A) :
  len s <= k -> slice_from (- k) s = s.
Proof.
  intros H. unfold slice_from, slice_bound.
  destruct (Z.ltb_spec (- k) 0) as [Hk|Hk].
  - replace (Z.to_nat (Z.max 0 (- k + len s))) with 0%nat by lia. reflexivity.
  - assert (len s = 0) by (pose proof (len_nonneg s); lia).
    destruct s; [apply skipn_nil | unfold len in *; simpl in *; lia].
Qed.

Lemma slice_to_first {A} (k : Z) (s : list A) :
  0 <= k <= len s -> slice_to k s = firstn (Z.to_nat k) s.
Proof.
  intros H. unfold slice_to, slice_bound.
  destruct (Z.ltb_spec k 0) as [Hk|_]; [lia|].
  f_equal. lia.
Qed.

Lemma lstrip_head (s : str) y q : lstrip s = y :: q -> isspace y = false.
Proof.
  induction s as [|c s IH]; simpl; [discriminate|].
  destruct (isspace c) eqn:Hc; [exact IH|].
  intros E. injection E as <- _. exact Hc.
Qed.

Lemma rstrip_last (s : str) p x : rstrip s = p ++ [x] -> isspace x = false.
Proof.
  unfold rstrip. intros E.
  apply (f_equal (@rev char)) in E. rewrite rev_involutive, rev_unit in E.
  exact (@lstrip_head (rev s) x (rev p) E).
Qed.

Lemma lstrip_nil (s : str) : lstrip s = [] <-> forallb isspace s = true.
Proof.
  induction s as [|c s IH]; simpl; [tauto|].
  destruct (isspace c); simpl; [exact IH|]. split; discriminate.
Qed.

Lemma forallb_rev {A} (f : A -> bool) (l : list A) :
  forallb f (rev l) = forallb f l.
Proof.
  induction l as [|a l IH]; [reflexivity|].
  simpl. rewrite forallb_app, IH. simpl. rewrite andb_true_r. apply andb_comm.
Qed.

Lemma rstrip_nil (s : str) : rstrip s = [] <-> forallb isspace s = true.
Proof.
  unfold rstrip. rewrite <- forallb_rev, <- lstrip_nil.
  split; intros E.
  - apply (f_equal (@rev char)) in E. rewrite rev_involutive in E. exact E.
  - rewrite E. reflexivity.
Qed.

(** A string that is not all whitespace keeps something under each of the
    three strips. *)
Lemma strip_nonempty (s : str) :
  strip s <> [] -> lstrip s <> [] /\ rstrip s <> [].
Proof.
  intros H. assert (Hs : forallb isspace s <> true).
  { intros Hall. apply H. unfold strip.
    apply lstrip_nil in Hall. rewrite Hall. reflexivity. }
  split; intros E; apply Hs.
  - apply lstrip_nil; exact E.
  - apply rstrip_nil; exact E.
Qed.

Lemma nonempty_last {A} (l : list A) : l <> [] -> exists p x, l = p ++ [x].
Proof.
  intros H. destruct (exists_last H) as (p & x & E). eauto.
Qed.

Lemma getitem_last (p : str) (x : char) : getitem (p ++ [x]) (-1) = Val x.
Proof.
  unfold getitem. rewrite len_app. change (len [x]) with 1.
  pose proof (len_nonneg p) as Hp.
  change (-1 <? 0) with true. cbv iota.
  replace (-1 + (len p + 1)) with (len p) by lia.
  destruct (Z.ltb_spec (len p) 0); [lia|].
  destruct (Z.leb_spec (len p + 1) (len p)); [lia|]. simpl.
  unfold len. rewrite Nat2Z.id, nth_error_app2, Nat.sub_diag by lia.
  reflexivity.
Qed.

Lemma getitem_nil (i : Z) : getitem [] i = Exn IndexError.
Proof.
  unfold getitem. change (len (@nil char)) with 0.
  destruct (i <? 0) eqn:Hi.
  - replace (i + 0 <? 0) with true by (symmetry; apply Z.ltb_lt; apply Z.ltb_lt in Hi; lia).
    reflexivity.
  - replace (0 <=? i) with true by (symmetry; apply Z.leb_le; apply Z.ltb_ge in Hi; lia).
    rewrite orb_true_r. reflexivity.
Qed.

(* ===================================================================== *)
(** * The context window *)
(* ===================================================================== *)

Lemma truncate_message_short (msg : str) :
  len msg <= MAX_MESSAGE_CHARS -> truncate_message msg MAX_MESSAGE_CHARS = msg.
Proof.
  intros H. unfold truncate_message.
  destruct (Z.leb_spec (len msg) MAX_MESSAGE_CHARS); [reflexivity | lia].
Qed.

Lemma truncate_message_long (msg : str) :
  MAX_MESSAGE_CHARS < len msg ->
  truncate_message msg MAX_MESSAGE_CHARS =
  firstn HALF msg ++ [0x0A; 0x2E; 0x2E; 0x2E; 0x0A]%N ++ skipn (length msg - HALF) msg.
Proof.
  intros H. unfold truncate_message.
  destruct (Z.leb_spec (len msg) MAX_MESSAGE_CHARS); [lia|].
  change (MAX_MESSAGE_CHARS / 2 - 10) with 390 in *.
  unfold MAX_MESSAGE_CHARS in *.
  rewrite slice_to_first by lia.
  rewrite (@slice_from_last char 390) by lia.
  reflexivity.
Qed.

Lemma truncate_message_len (msg : str) :
  len (truncate_message msg MAX_MESSAGE_CHARS) <= MAX_MESSAGE_CHARS.
Proof.
  destruct (Z.leb_spec (len msg) MAX_MESSAGE_CHARS) as [H|H].
  - rewrite truncate_message_short; assumption.
  - rewrite truncate_message_long by assumption.
    unfold MAX_MESSAGE_CHARS, len in *. change HALF with 390%nat.
    rewrite !length_app, length_firstn, length_skipn. cbn [length]. lia.
Qed.

(** The window of a log that holds at least [max_items] messages. *)
Lemma prepare_recent_history_last (history : list dict) :
  MAX_CHAT_CONTEXT_HISTORY <= len history ->
  prepare_recent_history history MAX_CHAT_CONTEXT_HISTORY =
  map (fun m => message (get (d_role m) role_user)
                        (truncate_message (get (d_content m) []) MAX_MESSAGE_CHARS))
      (skipn (length history - 6) history).
Proof.
  intros H. unfold prepare_recent_history.
  rewrite slice_from_last by (unfold MAX_CHAT_CONTEXT_HISTORY in *; lia).
  reflexivity.
Qed.

(** C2.  On a log of at least N = 6 messages [prepare_recent_history]
    returns exactly N messages (it never prepends a seventh), one for each
    of the last N of the log and in their order; every returned content has
    at most C = 800 characters: a content of at most C characters is passed
    through unchanged, a longer one becomes its first C/2 - 10 = 390
    characters, the marker of a newline, three full stops and a newline,
    and its last 390 characters. *)
Theorem c2_window_bound (history : list dict)
        (H : MAX_CHAT_CONTEXT_HISTORY <= len history) :
  let window := prepare_recent_history history MAX_CHAT_CONTEXT_HISTORY in
  len window = MAX_CHAT_CONTEXT_HISTORY /\
  Forall2 (fun m p =>
             let c := get (d_content m) [] in
             d_role p = Some (get (d_role m) role_user) /\
             d_content p =
             Some (if len c <=? MAX_MESSAGE_CHARS then c
                   else firstn HALF c ++ [0x0A; 0x2E; 0x2E; 0x2E; 0x0A]%N
                        ++ skipn (length c - HALF) c))
          (skipn (length history - 6) history) window /\
  Forall (fun p => exists c, d_content p = Some c /\ len c <= MAX_MESSAGE_CHARS)
         window.
Proof.
  intros window. subst window. rewrite prepare_recent_history_last by assumption.
  split; [|split].
  - unfold len, MAX_CHAT_CONTEXT_HISTORY in *.
    rewrite length_map, length_skipn. lia.
  - induction (skipn (length history - 6) history) as [|m l IH]; simpl;
      constructor; [|exact IH].
    simpl. split; [reflexivity|]. f_equal.
    destruct (Z.leb_spec (len (get (d_content m) [])) MAX_MESSAGE_CHARS).
    + apply truncate_message_short; assumption.
    + apply truncate_message_long; assumption.
  - apply Forall_forall. intros p Hp. apply in_map_iff in Hp.
    destruct Hp as (m & <- & _). eexists. split; [reflexivity|].
    apply truncate_message_len.
Qed.

Lemma c2_window_bound_witness :
  MAX_CHAT_CONTEXT_HISTORY <= len SEVEN_MESSAGES /\
  len (prepare_recent_history SEVEN_MESSAGES MAX_CHAT_CONTEXT_HISTORY)
  = MAX_CHAT_CONTEXT_HISTORY.
Proof.
  assert (H : MAX_CHAT_CONTEXT_HISTORY <= len SEVEN_MESSAGES) by (vm_compute; discriminate).
  split; [exact H | exact (proj1 (c2_window_bound SEVEN_MESSAGES H))].
Defined.

(** The window is made of the last six messages only: when none of them
    has the system role, no message of the window has it, whatever stands
    earlier in the log. *)
Lemma identity_not_prepended (history : list dict) :
  MAX_CHAT_CONTEXT_HISTORY <= len history ->
  existsb (fun m => str_eqb (get (d_role m) role_user) role_system)
          (skipn (length history - 6) history) = false ->
  existsb is_system (prepare_recent_history history MAX_CHAT_CONTEXT_HISTORY)
  = false.
Proof.
  intros H. rewrite prepare_recent_history_last by assumption.
  induction (skipn (length history - 6) history) as [|m l IH]; simpl; [reflexivity|].
  intros E. apply orb_false_iff in E. destruct E as [Em El].
  unfold is_system at 1. simpl. rewrite Em. simpl. exact (IH El).
Qed.

(** C1.  The log of seven messages starts with the identity message, one
    place before the last six; the window built from it is exactly the six
    later messages, and holds no system-role message: the identity message
    is not prepended. *)
Theorem c1_identity_dropped :
  nth_error SEVEN_MESSAGES 0 = Some SOULBOT_SYSTEM_MESSAGE /\
  len SEVEN_MESSAGES = 7 /\
  prepare_recent_history SEVEN_MESSAGES MAX_CHAT_CONTEXT_HISTORY
  = tl SEVEN_MESSAGES /\
  existsb is_system
          (prepare_recent_history SEVEN_MESSAGES MAX_CHAT_CONTEXT_HISTORY)
  = false.
Proof. repeat split; vm_compute; reflexivity. Qed.

(* ===================================================================== *)
(** * The truncation heuristic *)
(* ===================================================================== *)

Lemma is_likely_truncated_short (x : str) :
  len x < 30 -> _is_likely_truncated x = Val false.
Proof.
  intros H. unfold _is_likely_truncated.
  destruct (Z.ltb_spec (len x) 30); [|lia].
  rewrite orb_true_r. reflexivity.
Qed.

Lemma is_likely_truncated_long (text : str) :
  30 <= len text ->
  _is_likely_truncated text =
  let s := strip text in
  if endswith s (lit "...") || endswith s [0x2026%N] then Val true
  else
    last <- getitem s (-1) ;;
    Val (negb (char_in last SENTENCE_FINAL) && negb (char_in last CLOSING_BRACKETS)).
Proof.
  intros H. unfold _is_likely_truncated.
  destruct (Z.ltb_spec (len text) 30); [lia|].
  destruct text as [|c text]; [unfold len in H; simpl in H; lia|].
  cbn [truthy negb orb]. cbv zeta.
  destruct (endswith _ _ || endswith _ _); [reflexivity|].
  destruct (getitem (strip (c :: text)) (-1)) as [last|e]; [|reflexivity].
  cbn [bind].
  destruct (char_in last SENTENCE_FINAL); [reflexivity|].
  destruct (char_in last CLOSING_BRACKETS); reflexivity.
Qed.

(** On every text of at least 30 characters that is not all whitespace the
    heuristic answers, and answers as described: true after an ellipsis,
    otherwise true unless the last character closes a sentence, a quotation
    or a bracket. *)
Lemma is_likely_truncated_spec (text p : str) (c : char) :
  30 <= len text ->
  strip text = p ++ [c] ->
  _is_likely_truncated text =
  Val (endswith (p ++ [c]) (lit "...") || endswith (p ++ [c]) [0x2026%N] ||
       negb (char_in c (lit ".!?" ++ [0x22; 0x27; 0x201D]%N)) &&
       negb (char_in c (lit ")]}"))).
Proof.
  intros H E. rewrite is_likely_truncated_long by assumption.
  cbv zeta. rewrite E, getitem_last. cbn [bind].
  destruct (endswith _ _ || endswith _ _); [reflexivity|].
  cbn [orb]. f_equal. f_equal. f_equal.
  unfold char_in, SENTENCE_FINAL. rewrite !existsb_app. simpl.
  destruct (c =? 8221)%N; simpl; rewrite ?orb_true_r, ?orb_false_r; reflexivity.
Qed.

(** On a text of at least 30 characters, all of them whitespace, the
    heuristic raises: nothing is left to index after [strip]. *)
Lemma is_likely_truncated_blank (text : str) :
  30 <= len text -> strip text = [] ->
  _is_likely_truncated text = Exn IndexError.
Proof.
  intros H E. rewrite is_likely_truncated_long by assumption.
  cbv zeta. rewrite E. reflexivity.
Qed.

(** C5.  Thirty spaces are a text of length 30; stripped, nothing is left,
    and the heuristic raises [IndexError] where it should answer. *)
Theorem c5_blank_text_raises :
  len (repeat 0x20%N 30) = 30 /\
  strip (repeat 0x20%N 30) = [] /\
  _is_likely_truncated (repeat 0x20%N 30) = Exn IndexError.
Proof. repeat split; vm_compute; reflexivity. Qed.

(** C6 as written does not hold: [Wait...] has seven characters, and a
    text under 30 characters is never reported truncated. *)
Lemma c6_counterexample :
  ~ (_is_likely_truncated (lit "Hello.") = Val false /\
     _is_likely_truncated (lit "Wait...") = Val true /\
     forall x, len x < 30 -> _is_likely_truncated x = Val false).
Proof.
  intros (_ & H & _). vm_compute in H. discriminate H.
Qed.

(** C6, amended.  The heuristic answers false on [Hello.], false on
    [Wait...] too (it is shorter than 30 characters), and false on every
    text of fewer than 30 characters, whatever its ending. *)
Theorem c6_short_text (x : str) (H : len x < 30) :
  _is_likely_truncated (lit "Hello.") = Val false /\
  _is_likely_truncated (lit "Wait...") = Val false /\
  _is_likely_truncated x = Val false.
Proof.
  repeat split; try (vm_compute; reflexivity).
  apply is_likely_truncated_short; assumption.
Qed.

Lemma c6_short_text_witness :
  len (lit "And then...") < 30 /\
  _is_likely_truncated (lit "And then...") = Val false.
Proof.
  assert (H : len (lit "And then...") < 30) by (vm_compute; reflexivity).
  split; [exact H | exact (proj2 (proj2 (c6_short_text (lit "And then...") H)))].
Defined.

(* ===================================================================== *)
(** * The reply loop *)
(* ===================================================================== *)

Section Replies.

Variable Server : Type.
Variable api_chat :
  Server -> list dict -> option options -> chat_outcome * Server.

Lemma ollama_chat_served messages opts (w : world Server) :
  ollama_chat api_chat messages opts w =
  let rq := (messages, Some (chat_options opts)) in
  match api_chat (server w) messages (Some (chat_options opts)) with
  | (Replies c, sv) => (ChatResponse c, served w rq sv)
  | (Raises e, sv) => (ErrorDict e, served w rq sv)
  end.
Proof.
  unfold ollama_chat. cbv zeta.
  destruct (api_chat _ _ _) as [[c|e] sv]; reflexivity.
Qed.

(** The body of the loop, by what the server does with the request. *)
Lemma continuation_body_served rh ai (w : world Server) :
  continuation_body api_chat rh ai w =
  let rq := continuation_request rh in
  match api_chat (server w) (fst rq) (snd rq) with
  | (Raises e, sv) =>
      if truthy e then Break (served w rq sv) else Raise KeyError (served w rq sv)
  | (Replies c, sv) =>
      if truthy (strip c)
      then Next (rstrip ai ++ lit " " ++ lstrip c) (served w rq sv)
      else Break (served w rq sv)
  end.
Proof.
  unfold continuation_body. rewrite ollama_chat_served. cbv zeta.
  unfold continuation_request. cbn [fst snd].
  destruct (api_chat _ _ _) as [[c|e] sv]; cbn [is_error message_content].
  - destruct c; reflexivity.
  - destruct e; reflexivity.
Qed.

Lemma continuation_body_world rh ai (w : world Server) :
  exists sv,
    exit_world (continuation_body api_chat rh ai w)
    = served w (continuation_request rh) sv.
Proof.
  rewrite continuation_body_served. cbv zeta.
  destruct (api_chat _ _ _) as [[c|e] sv]; exists sv.
  - destruct (truthy (strip c)); reflexivity.
  - destruct (truthy e); reflexivity.
Qed.

(** The loop leaves the flag and the log alone, and sends at most
    [2 - attempts] requests, each the continuation request. *)
Lemma continuation_loop_inv rh ai attempts (w : world Server) :
  let w' := snd (continuation_loop api_chat rh ai attempts w) in
  ollama_available w' = ollama_available w /\
  conversation_history w' = conversation_history w /\
  exists k, (k <= 2 - attempts)%nat /\
            requests w' = requests w ++ repeat (continuation_request rh) k.
Proof.
  funelim (continuation_loop api_chat rh ai attempts w); cbv zeta;
    cbn [snd];
    try (match goal with
         | Hb : continuation_body _ ?rh ?ai ?w = _ |- _ =>
             destruct (continuation_body_world rh ai w) as [sv Hsv];
             rewrite Hb in Hsv; cbn [exit_world] in Hsv; subst
         end).
  1-3: (repeat split; try reflexivity); exists 0%nat;
       rewrite app_nil_r; split; [lia | reflexivity].
  1-2: (repeat split; try reflexivity); exists 1%nat;
       split; [lia | reflexivity].
  destruct H as (Hav & Hlog & k & Hk & Hrq).
  rewrite Hav, Hlog, Hrq. repeat split; try reflexivity.
  exists (S k). split; [lia|].
  cbn [requests served repeat]. rewrite <- app_assoc. reflexivity.
Qed.

(** The loop, one test at a time. *)
Lemma continuation_loop_tests rh ai attempts (w : world Server) :
  continuation_loop api_chat rh ai attempts w =
  match _is_likely_truncated ai with
  | Exn e => (Exn e, w)
  | Val false => (Val ai, w)
  | Val true =>
      if (attempts <? 2)%nat then
        match continuation_body api_chat rh ai w with
        | Break w' => (Val ai, w')
        | Raise e w' => (Exn e, w')
        | Next ai' w' => continuation_loop api_chat rh ai' (S attempts) w'
        end
      else (Val ai, w)
  end.
Proof.
  funelim (continuation_loop api_chat rh ai attempts w);
    repeat match goal with
           | E : _is_likely_truncated _ = _ |- _ => rewrite E; clear E
           | E : continuation_body _ _ _ _ = _ |- _ => rewrite E; clear E
           end;
    try reflexivity;
    destruct (Nat.ltb_spec attempts 2); (reflexivity || lia).
Qed.

(** A call made while the server is believed available, by what the
    server does with the first request. *)
Lemma generate_response_online user_input (w : world Server) :
  ollama_available w = true ->
  generate_response api_chat user_input w =
  let rq := primary_request user_input (conversation_history w) in
  let w1 := served (history_append (message role_user user_input) w) rq in
  match api_chat (server w) (fst rq) (snd rq) with
  | (Raises e, sv) =>
      (if truthy e then Val (lit "Error: " ++ e) else Exn KeyError, w1 sv)
  | (Replies c, sv) =>
      match continuation_loop api_chat (fst rq) c 0 (w1 sv) with
      | (Exn x, w2) => (Exn x, w2)
      | (Val ai, w2) =>
          (Val ai, history_append (message role_assistant ai) w2)
      end
  end.
Proof.
  intros Hav. unfold generate_response. rewrite Hav. cbn [negb]. cbv zeta.
  rewrite ollama_chat_served. cbv zeta.
  unfold primary_request. cbn [fst snd history_append server conversation_history].
  destruct (api_chat _ _ _) as [[c|e] sv]; cbn [is_error message_content resp_error].
  - reflexivity.
  - destruct e; reflexivity.
Qed.

Lemma generate_response_offline user_input (w : world Server) :
  ollama_available w = false ->
  generate_response api_chat user_input w = (Val OFFLINE_NOTICE, w).
Proof. intros Hav. unfold generate_response. rewrite Hav. reflexivity. Qed.

(** C4.  Whatever the server does and whatever the heuristic keeps
    answering, a call to [generate_response] sends, after the first
    request, at most 2 continuation requests (and sends nothing when the
    server is believed down). *)
Theorem c4_continuation_bound user_input (w : world Server) :
  let rq := primary_request user_input (conversation_history w) in
  exists k, (k <= 2)%nat /\
    requests (snd (generate_response api_chat user_input w)) =
    requests w ++
      (if ollama_available w
       then rq :: repeat (continuation_request (fst rq)) k
       else []).
Proof.
  cbv zeta. destruct (ollama_available w) eqn:Hav.
  - rewrite generate_response_online by assumption. cbv zeta.
    destruct (api_chat _ _ _) as [[c|e] sv].
    + match goal with
      | |- context [continuation_loop _ ?rh c 0 ?w1] =>
          pose proof (continuation_loop_inv rh c 0 w1) as Hinv;
          destruct (continuation_loop api_chat rh c 0 w1) as [r w2]
      end.
      cbv zeta in Hinv. cbn [snd] in Hinv.
      destruct Hinv as (_ & _ & k & Hk & Hrq). exists k. split; [lia|].
      assert (E : requests w2 =
                  requests w ++ primary_request user_input (conversation_history w)
                    :: repeat (continuation_request
                                 (fst (primary_request user_input
                                         (conversation_history w)))) k).
      { rewrite Hrq. cbn [requests served history_append].
        rewrite <- app_assoc. reflexivity. }
      destruct r; cbn [snd history_append requests]; exact E.
    + exists 0%nat. split; [lia | reflexivity].
  - rewrite generate_response_offline by assumption.
    exists 0%nat. split; [lia|]. cbn [snd]. rewrite app_nil_r. reflexivity.
Qed.

(** C3, amended.  When the first request fails with a non-empty error
    text [e], the call returns [Error: ] followed by [e]; that request is
    the only one sent, and the log gains the user's message and no
    assistant message. *)
Theorem c3_primary_failure user_input (w : world Server) e sv
        (Hav : ollama_available w = true)
        (Hfail : let rq := primary_request user_input (conversation_history w) in
                 api_chat (server w) (fst rq) (snd rq) = (Raises e, sv))
        (He : e <> []) :
  generate_response api_chat user_input w =
  (Val (lit "Error: " ++ e),
   mk_world true
            (conversation_history w ++ [message role_user user_input])
            sv
            (requests w ++ [primary_request user_input (conversation_history w)])).
Proof.
  rewrite generate_response_online by assumption. cbv zeta in *.
  rewrite Hfail. destruct e as [|a e]; [contradiction|].
  unfold served, history_append. cbn [truthy ollama_available
    conversation_history server requests]. rewrite Hav. reflexivity.
Qed.

(** C10.  With the availability flag false the call returns the offline
    notice and changes nothing: the log is as before and no request is
    sent.  With the flag true and a first request that fails, the user's
    message is in the log by the time the call ends. *)
Theorem c10_offline_flag user_input (w_off w_on : world Server) e sv
        (Hoff : ollama_available w_off = false)
        (Hon : ollama_available w_on = true)
        (Hfail : let rq := primary_request user_input (conversation_history w_on) in
                 api_chat (server w_on) (fst rq) (snd rq) = (Raises e, sv)) :
  generate_response api_chat user_input w_off =
  (Val (lit "Ollama is offline. Please start the server."), w_off) /\
  conversation_history (snd (generate_response api_chat user_input w_on)) =
  conversation_history w_on ++ [message role_user user_input].
Proof.
  split.
  - apply generate_response_offline; assumption.
  - rewrite generate_response_online by assumption. cbv zeta in *.
    rewrite Hfail. reflexivity.
Qed.

(** A reply the heuristic reports truncated is not all whitespace. *)
Lemma truncated_nonblank (ai : str) :
  _is_likely_truncated ai = Val true -> strip ai <> [].
Proof.
  intros H E. destruct (Z.ltb_spec (len ai) 30) as [Hl|Hl].
  - rewrite is_likely_truncated_short in H by assumption. discriminate.
  - rewrite is_likely_truncated_blank in H by assumption. discriminate.
Qed.

(** C7.  In the loop, when the continuation request is answered with a
    text that is not all whitespace, the loop goes on with the reply
    stripped on the right, one space, and the continuation stripped on
    the left; the characters on either side of that space are not
    whitespace, so the two texts are separated by exactly one space. *)
Theorem c7_join_one_space rh ai attempts (w : world Server) c sv
        (Hcut : _is_likely_truncated ai = Val true)
        (Hatt : (attempts < 2)%nat)
        (Hcont : let rq := continuation_request rh in
                 api_chat (server w) (fst rq) (snd rq) = (Replies c, sv))
        (Hc : strip c <> []) :
  let joined := rstrip ai ++ [0x20%N] ++ lstrip c in
  continuation_loop api_chat rh ai attempts w =
  continuation_loop api_chat rh joined (S attempts)
                    (served w (continuation_request rh) sv) /\
  exists p x y q,
    rstrip ai = p ++ [x] /\ lstrip c = y :: q /\
    isspace x = false /\ isspace y = false /\
    joined = p ++ [x; 0x20%N; y] ++ q.
Proof.
  cbv zeta in *. split.
  - rewrite continuation_loop_tests, Hcut.
    destruct (Nat.ltb_spec attempts 2); [|lia].
    rewrite continuation_body_served. cbv zeta. rewrite Hcont.
    destruct (strip c); [contradiction | reflexivity].
  - destruct (strip_nonempty c Hc) as [Hl _].
    destruct (strip_nonempty ai (truncated_nonblank ai Hcut)) as [_ Hr].
    destruct (nonempty_last Hr) as (p & x & Ex).
    destruct (lstrip c) as [|y q] eqn:Ey; [contradiction|].
    exists p, x, y, q. rewrite Ex. repeat split.
    + exact (@rstrip_last ai p x Ex).
    + exact (@lstrip_head c y q Ey).
    + rewrite <- app_assoc. reflexivity.
Qed.

(** A continuation request that fails with a non-empty error text ends
    the loop with the reply as it stands. *)
Lemma continuation_failure_absorbed user_input (w : world Server) r sv1 e sv2 :
  ollama_available w = true ->
  (let rq := primary_request user_input (conversation_history w) in
   api_chat (server w) (fst rq) (snd rq) = (Replies r, sv1)) ->
  _is_likely_truncated r = Val true ->
  (let rq := continuation_request
               (fst (primary_request user_input (conversation_history w))) in
   api_chat sv1 (fst rq) (snd rq) = (Raises e, sv2)) ->
  e <> [] ->
  generate_response api_chat user_input w =
  (Val r,
   mk_world true
     (conversation_history w
      ++ [message role_user user_input; message role_assistant r])
     sv2
     (requests w
      ++ [primary_request user_input (conversation_history w);
          continuation_request
            (fst (primary_request user_input (conversation_history w)))])).
Proof.
  intros Hav Hp Hcut Hc He. cbv zeta in *.
  rewrite generate_response_online by assumption. cbv zeta. rewrite Hp.
  rewrite continuation_loop_tests, Hcut. cbn [Nat.ltb Nat.leb].
  rewrite continuation_body_served. cbv zeta.
  cbn [server served]. rewrite Hc.
  destruct e as [|a e]; [contradiction|]. cbn [truthy].
  unfold served, history_append. cbn [ollama_available conversation_history
    server requests]. rewrite Hav, <- !app_assoc. reflexivity.
Qed.

(** ** The log *)

Lemma generate_response_success user_input reply (w w' : world Server) :
  successful api_chat primary_request (generate_response api_chat)
             user_input reply w w' ->
  conversation_history w' =
  conversation_history w ++ turn_messages (user_input, reply).
Proof.
  intros (Hav & (c & Hc) & Hgen). cbv zeta in Hc.
  rewrite generate_response_online in Hgen by assumption. cbv zeta in Hgen.
  destruct (api_chat _ _ _) as [o sv]. cbn [fst] in Hc. subst o.
  match type of Hgen with
  | context [continuation_loop _ ?rh c 0 ?w1] =>
      pose proof (continuation_loop_inv rh c 0 w1) as Hinv;
      destruct (continuation_loop api_chat rh c 0 w1) as [r w2]
  end.
  cbv zeta in Hinv. cbn [snd] in Hinv. destruct Hinv as (_ & Hlog & _).
  destruct r as [ai|x]; [|discriminate].
  injection Hgen as -> <-.
  cbn [history_append conversation_history served] in *.
  rewrite Hlog, <- app_assoc. reflexivity.
Qed.

Lemma advanced_generate_response_success user_input reply (w w' : world Server) :
  successful api_chat advanced_request (Advanced.generate_response api_chat)
             user_input reply w w' ->
  conversation_history w' =
  conversation_history w ++ turn_messages (user_input, reply).
Proof.
  intros (Hav & (c & Hc) & Hgen). cbv zeta in Hc.
  unfold Advanced.generate_response, Advanced.ollama_chat in Hgen.
  rewrite Hav in Hgen. cbn [negb] in Hgen. cbv zeta in Hgen.
  unfold advanced_request in Hc. cbn [fst snd] in Hc.
  cbn [history_append server conversation_history] in Hgen.
  destruct (api_chat _ _ _) as [o sv]. cbn [fst] in Hc. subst o.
  cbn [is_error message_content] in Hgen.
  injection Hgen as -> <-.
  cbn [history_append conversation_history served].
  rewrite <- app_assoc. reflexivity.
Qed.

Lemma turns_log first_request generate (w w' : world Server) t :
  (forall i r v v',
      successful api_chat first_request generate i r v v' ->
      conversation_history v' = conversation_history v ++ turn_messages (i, r)) ->
  turns api_chat first_request generate w t w' ->
  conversation_history w' = conversation_history w ++ flat_map turn_messages t.
Proof.
  intros Hstep H. induction H as [w | w i r w1 t w2 Hs _ IH].
  - cbn [flat_map]. rewrite app_nil_r. reflexivity.
  - rewrite IH, (Hstep _ _ _ _ Hs). cbn [flat_map].
    rewrite <- app_assoc. reflexivity.
Qed.

(** C9.  Along any sequence of successful calls, of [final.py] or of
    [advanced.py], the log at the end is the log at the start followed,
    for each call in turn, by the user's message and the assistant's
    message with the reply returned: earlier entries stay as they are. *)
Theorem c9_append_only (w w' : world Server) (t : list (str * str))
        (H : turns api_chat primary_request
                   (generate_response api_chat) w t w' \/
             turns api_chat advanced_request
                   (Advanced.generate_response api_chat) w t w') :
  conversation_history w' =
  conversation_history w ++ flat_map turn_messages t.
Proof.
  destruct H as [H|H]; revert H; apply turns_log.
  - apply generate_response_success.
  - apply advanced_generate_response_success.
Qed.

(** Whatever the outcome of a call, it only adds to the log. *)
Lemma generate_response_extends user_input (w : world Server) :
  exists added,
    conversation_history (snd (generate_response api_chat user_input w)) =
    conversation_history w ++ added.
Proof.
  destruct (ollama_available w) eqn:Hav.
  - rewrite generate_response_online by assumption. cbv zeta.
    destruct (api_chat _ _ _) as [[c|e] sv].
    + match goal with
      | |- context [continuation_loop _ ?rh c 0 ?w1] =>
          pose proof (continuation_loop_inv rh c 0 w1) as Hinv;
          destruct (continuation_loop api_chat rh c 0 w1) as [r w2]
      end.
      cbv zeta in Hinv. cbn [snd] in Hinv. destruct Hinv as (_ & Hlog & _).
      destruct r as [ai|x]; cbn [snd history_append conversation_history];
        rewrite Hlog; cbn [history_append conversation_history served];
        rewrite <- ?app_assoc; eexists; reflexivity.
    + eexists. reflexivity.
  - rewrite generate_response_offline by assumption.
    exists []. cbn [snd]. rewrite app_nil_r. reflexivity.
Qed.

Lemma run_extends inputs (w : world Server) :
  exists added,
    conversation_history (run (generate_response api_chat) inputs w) =
    conversation_history w ++ added.
Proof.
  revert w. induction inputs as [|i inputs IH]; intros w; cbn [run fold_left].
  - exists []. rewrite app_nil_r. reflexivity.
  - destruct (generate_response_extends i w) as [a Ha].
    destruct (IH (snd (generate_response api_chat i w))) as [b Hb].
    exists (a ++ b). unfold run in Hb. rewrite Hb, Ha, app_assoc. reflexivity.
Qed.

End Replies.

(* ===================================================================== *)
(** * The scenarios, on the scripted server *)
(* ===================================================================== *)

(** Scenario A: a complete reply is returned as it is, after one request,
    and the log holds the two messages of the turn. *)
Example scenario_A :
  generate_response scripted ANXIOUS (fresh [Replies COMPLETE_REPLY] []) =
  (Val COMPLETE_REPLY,
   mk_world true
            [message role_user ANXIOUS; message role_assistant COMPLETE_REPLY]
            [] [primary_request ANXIOUS []]).
Proof. vm_compute. reflexivity. Qed.

(** Scenario B: an unfinished reply is continued once, and joined to its
    continuation by one space. *)
Example scenario_B :
  fst (generate_response scripted ANXIOUS
         (fresh [Replies UNFINISHED_REPLY; Replies (lit "clear skies again.")] []))
  = Val (UNFINISHED_REPLY ++ lit " " ++ lit "clear skies again.").
Proof. vm_compute. reflexivity. Qed.

(** Scenario C: a continuation request that fails with an error text ends
    the turn with the unfinished reply. *)
Example scenario_C :
  fst (generate_response scripted ANXIOUS
         (fresh [Replies UNFINISHED_REPLY; Raises (lit "connection refused")] []))
  = Val UNFINISHED_REPLY.
Proof. vm_compute. reflexivity. Qed.

(** C3 as written does not hold: the string returned when the first
    request fails is not a fixed one, it carries the text of the error. *)
Lemma c3_counterexample :
  ~ (exists notice : str,
        forall e : str,
          fst (generate_response scripted ANXIOUS (fresh [Raises e] []))
          = Val notice).
Proof.
  intros [notice H].
  pose proof (H (lit "timed out")) as H1.
  pose proof (H (lit "refused")) as H2.
  vm_compute in H1, H2. rewrite <- H1 in H2. discriminate H2.
Qed.

Lemma c3_primary_failure_witness :
  generate_response scripted ANXIOUS (fresh [Raises (lit "timed out")] []) =
  (Val (lit "Error: timed out"),
   mk_world true [message role_user ANXIOUS] [] [primary_request ANXIOUS []]).
Proof.
  apply (@c3_primary_failure (list chat_outcome) scripted ANXIOUS
           (fresh [Raises (lit "timed out")] []) (lit "timed out") []).
  - reflexivity.
  - reflexivity.
  - discriminate.
Defined.

Lemma c10_offline_flag_witness :
  generate_response scripted ANXIOUS
    (mk_world false SEVEN_MESSAGES [Replies COMPLETE_REPLY] []) =
  (Val (lit "Ollama is offline. Please start the server."),
   mk_world false SEVEN_MESSAGES [Replies COMPLETE_REPLY] []) /\
  conversation_history
    (snd (generate_response scripted ANXIOUS
            (fresh [Raises (lit "timed out")] SEVEN_MESSAGES))) =
  SEVEN_MESSAGES ++ [message role_user ANXIOUS].
Proof.
  apply (@c10_offline_flag (list chat_outcome) scripted ANXIOUS
           (mk_world false SEVEN_MESSAGES [Replies COMPLETE_REPLY] [])
           (fresh [Raises (lit "timed out")] SEVEN_MESSAGES)
           (lit "timed out") []).
  - reflexivity.
  - reflexivity.
  - reflexivity.
Defined.

Lemma c7_join_one_space_witness :
  continuation_loop scripted [] UNFINISHED_REPLY 0
                    (fresh [Replies (lit "  clear skies again.")] []) =
  continuation_loop scripted []
                    (UNFINISHED_REPLY ++ lit " " ++ lit "clear skies again.") 1
                    (served (fresh [Replies (lit "  clear skies again.")] [])
                            (continuation_request []) []).
Proof.
  apply (@c7_join_one_space (list chat_outcome) scripted [] UNFINISHED_REPLY 0
           (fresh [Replies (lit "  clear skies again.")] [])
           (lit "  clear skies again.") []).
  - vm_compute. reflexivity.
  - lia.
  - reflexivity.
  - vm_compute. discriminate.
Defined.

Lemma c9_append_only_witness :
  conversation_history
    (@mk_world (list chat_outcome) true
       (SEVEN_MESSAGES
        ++ [message role_user ANXIOUS; message role_assistant COMPLETE_REPLY])
       [] [primary_request ANXIOUS SEVEN_MESSAGES]) =
  conversation_history (fresh [Replies COMPLETE_REPLY] SEVEN_MESSAGES)
  ++ flat_map turn_messages [(ANXIOUS, COMPLETE_REPLY)].
Proof.
  apply (@c9_append_only (list chat_outcome) scripted
           (fresh [Replies COMPLETE_REPLY] SEVEN_MESSAGES)
           (@mk_world (list chat_outcome) true
              (SEVEN_MESSAGES
               ++ [message role_user ANXIOUS; message role_assistant COMPLETE_REPLY])
              [] [primary_request ANXIOUS SEVEN_MESSAGES])
           [(ANXIOUS, COMPLETE_REPLY)]).
  left. eapply turns_cons; [|apply turns_nil].
  split; [reflexivity | split].
  - exists COMPLETE_REPLY. reflexivity.
  - vm_compute. reflexivity.
Defined.

(** C8.  The first request is answered with the unfinished reply and the
    continuation request fails with an exception whose text is empty: the
    error dictionary is then not recognised, [KeyError] is raised out of
    [generate_response], and the log ends with the user's message, with no
    assistant message. *)
Theorem c8_empty_error_raises :
  _is_likely_truncated UNFINISHED_REPLY = Val true /\
  generate_response scripted ANXIOUS
                    (fresh [Replies UNFINISHED_REPLY; Raises []] []) =
  (Exn KeyError,
   mk_world true [message role_user ANXIOUS] []
            [primary_request ANXIOUS [];
             continuation_request (fst (primary_request ANXIOUS []))]).
Proof. split; vm_compute; reflexivity. Qed.

(* ===================================================================== *)
(** * Further properties of the context window *)
(* ===================================================================== *)

(** The truncation of a long message, for any budget of at least 22
    characters: both kept ends are whole. *)
Lemma truncate_message_cut (msg : str) (max_chars : Z) :
  22 <= max_chars -> max_chars < len msg ->
  truncate_message msg max_chars =
  firstn (Z.to_nat (max_chars / 2 - 10)) msg
  ++ [0x0A; 0x2E; 0x2E; 0x2E; 0x0A]%N
  ++ skipn (length msg - Z.to_nat (max_chars / 2 - 10)) msg.
Proof.
  intros HC H. unfold truncate_message.
  destruct (Z.leb_spec (len msg) max_chars); [lia|].
  assert (Hk : 1 <= max_chars / 2 - 10 <= len msg).
  { assert (11 <= max_chars / 2) by (apply Z.div_le_lower_bound; lia).
    assert (max_chars / 2 <= max_chars) by (apply Z.div_le_upper_bound; lia).
    lia. }
  rewrite slice_to_first, slice_from_last by lia. reflexivity.
Qed.

Lemma truncate_message_cut_len (msg : str) (max_chars : Z) :
  22 <= max_chars -> max_chars < len msg ->
  len (truncate_message msg max_chars) = 2 * (max_chars / 2 - 10) + 5.
Proof.
  intros HC H. rewrite truncate_message_cut by assumption.
  assert (Hk : 1 <= max_chars / 2 - 10 <= len msg).
  { assert (11 <= max_chars / 2) by (apply Z.div_le_lower_bound; lia).
    assert (max_chars / 2 <= max_chars) by (apply Z.div_le_upper_bound; lia).
    lia. }
  unfold len in *. rewrite !length_app, length_firstn, length_skipn.
  cbn [length]. lia.
Qed.

Lemma truncate_message_bound (msg : str) (max_chars : Z) :
  22 <= max_chars -> len (truncate_message msg max_chars) <= max_chars.
Proof.
  intros HC. destruct (Z.leb_spec (len msg) max_chars) as [H|H].
  - unfold truncate_message.
    destruct (Z.leb_spec (len msg) max_chars); [assumption | lia].
  - rewrite truncate_message_cut_len by assumption.
    pose proof (Z.mul_div_le max_chars 2). lia.
Qed.

(** X1.  For every budget [max_chars] of at least 22 characters (800 for
    the window, 600 for the classifier and CBT prompts, 1000 for display)
    the result of [truncate_message] never exceeds the budget; a message
    over the budget becomes exactly [2 * (max_chars // 2 - 10) + 5]
    characters. *)
Theorem x1_truncate_within_budget (msg : str) (max_chars : Z)
        (HC : 22 <= max_chars) :
  len (truncate_message msg max_chars) <= max_chars /\
  (max_chars < len msg ->
   len (truncate_message msg max_chars) = 2 * (max_chars / 2 - 10) + 5).
Proof.
  split.
  - apply truncate_message_bound; assumption.
  - apply truncate_message_cut_len; assumption.
Qed.

Lemma x1_truncate_within_budget_witness :
  len (truncate_message (repeat 0x61%N 700) 600) <= 600 /\
  (600 < len (repeat 0x61%N 700) ->
   len (truncate_message (repeat 0x61%N 700) 600) = 2 * (600 / 2 - 10) + 5).
Proof.
  apply (@x1_truncate_within_budget (repeat 0x61%N 700) 600). lia.
Defined.

(** X2.  With a budget of 20 or 21 characters nothing is cut: the head
    [msg[:0]] is empty and the tail [msg[-0:]] is the whole message, so a
    message over the budget comes back whole behind the marker, five
    characters longer than it was. *)
Theorem x2_truncate_tiny_budget_grows (msg : str) (max_chars : Z)
        (HC : 20 <= max_chars <= 21) (Hlong : max_chars < len msg) :
  truncate_message msg max_chars = [0x0A; 0x2E; 0x2E; 0x2E; 0x0A]%N ++ msg /\
  len (truncate_message msg max_chars) = len msg + 5.
Proof.
  assert (E : truncate_message msg max_chars
              = [0x0A; 0x2E; 0x2E; 0x2E; 0x0A]%N ++ msg).
  { unfold truncate_message.
    destruct (Z.leb_spec (len msg) max_chars); [lia|].
    assert (Hk : max_chars / 2 - 10 = 0).
    { assert (max_chars = 20 \/ max_chars = 21) as [-> | ->] by lia;
        reflexivity. }
    rewrite Hk. unfold slice_to, slice_from, slice_bound. cbn [Z.opp Z.ltb Z.compare].
    pose proof (len_nonneg msg).
    replace (Z.min 0 (len msg)) with 0 by lia. reflexivity. }
  split; [exact E|]. rewrite E, len_app. unfold len. cbn [length]. lia.
Qed.

Lemma x2_truncate_tiny_budget_grows_witness :
  truncate_message (lit "a thought of thirty characters") 20
  = [0x0A; 0x2E; 0x2E; 0x2E; 0x0A]%N ++ lit "a thought of thirty characters".
Proof.
  apply (@x2_truncate_tiny_budget_grows (lit "a thought of thirty characters") 20).
  - lia.
  - vm_compute. reflexivity.
Defined.

(** X3.  Truncating twice is truncating once, for every budget of at
    least 22 characters. *)
Theorem x3_truncate_idempotent (msg : str) (max_chars : Z)
        (HC : 22 <= max_chars) :
  truncate_message (truncate_message msg max_chars) max_chars
  = truncate_message msg max_chars.
Proof.
  pose proof (@truncate_message_bound msg max_chars HC) as H.
  unfold truncate_message at 1.
  destruct (Z.leb_spec (len (truncate_message msg max_chars)) max_chars);
    [reflexivity | lia].
Qed.

Lemma x3_truncate_idempotent_witness :
  truncate_message (truncate_message (repeat 0x61%N 900) 800) 800
  = truncate_message (repeat 0x61%N 900) 800.
Proof.
  apply (@x3_truncate_idempotent (repeat 0x61%N 900) 800). lia.
Defined.

Lemma slice_from_zero {A} (s : list A) : slice_from (- 0) s = s.
Proof.
  unfold slice_from, slice_bound. cbn [Z.opp Z.ltb Z.compare].
  pose proof (len_nonneg s). replace (Z.min 0 (len s)) with 0 by lia.
  reflexivity.
Qed.

Lemma slice_from_len {A} (n : Z) (s : list A) :
  1 <= n -> len (slice_from (- n) s) = Z.min (len s) n.
Proof.
  intros Hn. destruct (Z.le_gt_cases (len s) n) as [H|H].
  - rewrite slice_from_short by assumption. lia.
  - rewrite slice_from_last by lia. unfold len in *. rewrite length_skipn. lia.
Qed.


Lemma prepare_recent_history_map (history : list dict) (n : Z) :
  prepare_recent_history history n = map prepared (slice_from (- n) history).
Proof. reflexivity. Qed.

(** X4.  For every log, also one shorter than the window or empty, and
    every window size of at least 1, [prepare_recent_history] returns as
    many messages as the log has, up to the window size; each of them
    carries both keys, the role defaulting to [user], and a content of at
    most 800 characters. *)
Theorem x4_window_of_any_log (history : list dict) (max_items : Z)
        (Hn : 1 <= max_items) :
  let window := prepare_recent_history history max_items in
  len window = Z.min (len history) max_items /\
  Forall (fun p => exists r c,
              d_role p = Some r /\ d_content p = Some c /\
              len c <= MAX_MESSAGE_CHARS) window.
Proof.
  cbv zeta. rewrite prepare_recent_history_map. split.
  - unfold len at 1. rewrite length_map. apply slice_from_len; assumption.
  - apply Forall_forall. intros p Hp. apply in_map_iff in Hp.
    destruct Hp as (m & <- & _). do 2 eexists.
    split; [reflexivity | split; [reflexivity|]].
    apply truncate_message_len.
Qed.

Lemma x4_window_of_any_log_witness :
  len (prepare_recent_history
         [mk_dict None (Some (lit "no role")); mk_dict (Some role_user) None] 6)
  = Z.min 2 6.
Proof.
  apply (@x4_window_of_any_log
           [mk_dict None (Some (lit "no role")); mk_dict (Some role_user) None] 6).
  lia.
Defined.

(** X5.  With a window size of 0 the slice [history[-0:]] is the whole
    log: every message is returned, not none. *)
Theorem x5_window_size_zero_is_whole_log (history : list dict) :
  prepare_recent_history history 0 = map prepared history /\
  len (prepare_recent_history history 0) = len history.
Proof.
  rewrite prepare_recent_history_map, slice_from_zero.
  split; [reflexivity|]. unfold len. rewrite length_map. reflexivity.
Qed.



(** The window of a log that has just received a message ends with that
    message, prepared. *)
Lemma prepare_recent_history_snoc (history : list dict) (m : dict) (n : Z) :
  1 <= n ->
  exists front,
    prepare_recent_history (history ++ [m]) n = front ++ [prepared m].
Proof.
  intros Hn. rewrite prepare_recent_history_map.
  destruct (Z.le_gt_cases (len (history ++ [m])) n) as [H|H].
  - rewrite slice_from_short by assumption. rewrite map_app.
    eexists. reflexivity.
  - rewrite slice_from_last by lia. rewrite len_app in H.
    change (len [m]) with 1 in H. unfold len in H.
    rewrite length_app. cbn [length].
    rewrite skipn_app.
    replace (length history + 1 - Z.to_nat n - length history)%nat
      with 0%nat by lia.
    cbn [skipn]. rewrite map_app. eexists. reflexivity.
Qed.

(* ===================================================================== *)
(** * Further properties of the reply loop *)
(* ===================================================================== *)

Lemma forallb_lstrip (s : str) : forallb isspace (lstrip s) = forallb isspace s.
Proof.
  induction s as [|c s IH]; [reflexivity|]. cbn [lstrip].
  destruct (isspace c) eqn:Hc.
  - rewrite IH. cbn [forallb]. rewrite Hc. reflexivity.
  - reflexivity.
Qed.

Lemma strip_nil (s : str) : strip s = [] <-> forallb isspace s = true.
Proof.
  unfold strip. rewrite rstrip_nil, forallb_lstrip. tauto.
Qed.

(** The heuristic answers on every text that is short or not blank. *)
Lemma heuristic_answers (t : str) :
  strip t <> [] \/ len t < 30 -> exists b, _is_likely_truncated t = Val b.
Proof.
  intros [H|H].
  - destruct (Z.ltb_spec (len t) 30) as [Hl|Hl].
    + exists false. apply is_likely_truncated_short; assumption.
    + destruct (nonempty_last H) as (p & c & E).
      eexists. apply (is_likely_truncated_spec t p c Hl E).
  - exists false. apply is_likely_truncated_short; assumption.
Qed.

(** A reply joined to a continuation that is not blank is not blank. *)
Lemma joined_nonblank (ai c : str) :
  strip c <> [] -> strip (rstrip ai ++ lit " " ++ lstrip c) <> [].
Proof.
  intros Hc E. apply strip_nil in E.
  rewrite !forallb_app in E. apply andb_true_iff in E. destruct E as [_ E].
  apply andb_true_iff in E. destruct E as [_ E].
  destruct (strip_nonempty c Hc) as [Hl _].
  destruct (lstrip c) as [|y q] eqn:Ey; [contradiction|].
  pose proof (@lstrip_head c y q Ey) as Hy.
  cbn [forallb] in E. rewrite Hy in E. discriminate E.
Qed.

Section MoreReplies.

Variable Server : Type.
Variable api_chat :
  Server -> list dict -> option options -> chat_outcome * Server.

(** The requests of one call made while the server is believed
    available. *)
Lemma generate_response_requests user_input (w : world Server) :
  ollama_available w = true ->
  exists k, (k <= 2)%nat /\
    requests (snd (generate_response api_chat user_input w)) =
    requests w ++ primary_request user_input (conversation_history w)
      :: repeat (continuation_request
                   (fst (primary_request user_input (conversation_history w)))) k.
Proof.
  intros Hav. rewrite generate_response_online by assumption. cbv zeta.
  destruct (api_chat _ _ _) as [[c|e] sv].
  - match goal with
    | |- context [continuation_loop _ ?rh c 0 ?w1] =>
        pose proof (continuation_loop_inv api_chat rh c 0 w1) as Hinv;
        destruct (continuation_loop api_chat rh c 0 w1) as [r w2]
    end.
    cbv zeta in Hinv. cbn [snd] in Hinv.
    destruct Hinv as (_ & _ & k & Hk & Hrq). exists k. split; [lia|].
    destruct r; cbn [snd history_append requests]; rewrite Hrq;
      cbn [requests served history_append]; rewrite <- app_assoc; reflexivity.
  - exists 0%nat. split; [lia | reflexivity].
Qed.

(** X7.  The first request of a call always ends with the message the
    user has just typed, cut to 800 characters if longer: however long the
    log, the current input is in the context sent. *)
Theorem x7_request_ends_with_input user_input (w : world Server)
        (Hav : ollama_available w = true) :
  exists front opts later,
    requests (snd (generate_response api_chat user_input w)) =
    requests w
    ++ (front ++ [message role_user
                          (truncate_message user_input MAX_MESSAGE_CHARS)],
        opts) :: later.
Proof.
  destruct (@generate_response_requests user_input w Hav) as (k & _ & E).
  destruct (@prepare_recent_history_snoc (conversation_history w)
              (message role_user user_input) MAX_CHAT_CONTEXT_HISTORY)
    as [front Hf]; [unfold MAX_CHAT_CONTEXT_HISTORY; lia|].
  rewrite E. unfold primary_request at 1. rewrite Hf.
  do 3 eexists. reflexivity.
Qed.

(** X8.  A first reply that the heuristic does not report truncated is
    returned as it is, after that one request, and recorded as the
    assistant's message after the user's. *)
Theorem x8_complete_reply_verbatim user_input (w : world Server) r sv
        (Hav : ollama_available w = true)
        (Hp : let rq := primary_request user_input (conversation_history w) in
              api_chat (server w) (fst rq) (snd rq) = (Replies r, sv))
        (Hdone : _is_likely_truncated r = Val false) :
  generate_response api_chat user_input w =
  (Val r,
   mk_world true
     (conversation_history w
      ++ [message role_user user_input; message role_assistant r])
     sv
     (requests w ++ [primary_request user_input (conversation_history w)])).
Proof.
  cbv zeta in Hp. rewrite generate_response_online by assumption. cbv zeta.
  rewrite Hp, continuation_loop_tests, Hdone.
  unfold served, history_append.
  cbn [ollama_available conversation_history server requests].
  rewrite Hav, <- app_assoc. reflexivity.
Qed.

(** X9.  When the reply looks truncated and the continuation request is
    answered with an empty or blank text, the loop stops there: the first
    reply is returned unchanged and recorded, after two requests. *)
Theorem x9_blank_continuation_stops user_input (w : world Server) r sv1 c sv2
        (Hav : ollama_available w = true)
        (Hp : let rq := primary_request user_input (conversation_history w) in
              api_chat (server w) (fst rq) (snd rq) = (Replies r, sv1))
        (Hcut : _is_likely_truncated r = Val true)
        (Hc : let rq := continuation_request
                          (fst (primary_request user_input
                                                (conversation_history w))) in
              api_chat sv1 (fst rq) (snd rq) = (Replies c, sv2))
        (Hblank : strip c = []) :
  generate_response api_chat user_input w =
  (Val r,
   mk_world true
     (conversation_history w
      ++ [message role_user user_input; message role_assistant r])
     sv2
     (requests w
      ++ [primary_request user_input (conversation_history w);
          continuation_request
            (fst (primary_request user_input (conversation_history w)))])).
Proof.
  cbv zeta in *. rewrite generate_response_online by assumption. cbv zeta.
  rewrite Hp, continuation_loop_tests, Hcut. cbn [Nat.ltb Nat.leb].
  rewrite continuation_body_served. cbv zeta. cbn [server served].
  rewrite Hc, Hblank. cbn [truthy].
  unfold served, history_append.
  cbn [ollama_available conversation_history server requests].
  rewrite Hav, <- !app_assoc. reflexivity.
Qed.

(** X10.  When the first reply is a blank text of at least 30 characters,
    [IndexError] is raised out of [generate_response]: the user's message
    is in the log, no assistant message is, and no continuation request
    was sent. *)
Theorem x10_blank_reply_raises user_input (w : world Server) r sv
        (Hav : ollama_available w = true)
        (Hp : let rq := primary_request user_input (conversation_history w) in
              api_chat (server w) (fst rq) (snd rq) = (Replies r, sv))
        (Hlen : 30 <= len r)
        (Hblank : strip r = []) :
  generate_response api_chat user_input w =
  (Exn IndexError,
   mk_world true
     (conversation_history w ++ [message role_user user_input])
     sv
     (requests w ++ [primary_request user_input (conversation_history w)])).
Proof.
  cbv zeta in Hp. rewrite generate_response_online by assumption. cbv zeta.
  rewrite Hp, continuation_loop_tests.
  rewrite is_likely_truncated_blank by assumption.
  unfold served, history_append.
  cbn [ollama_available conversation_history server requests].
  rewrite Hav. reflexivity.
Qed.

(** The loop raises nothing when the server's failures all carry a text
    and the reply it starts from is short or not blank. *)
Lemma continuation_loop_returns rh ai attempts (w : world Server) :
  (forall sv msgs o e sv', api_chat sv msgs o = (Raises e, sv') -> e <> []) ->
  strip ai <> [] \/ len ai < 30 ->
  exists reply, fst (continuation_loop api_chat rh ai attempts w) = Val reply.
Proof.
  intros Hraise.
  funelim (continuation_loop api_chat rh ai attempts w); intros Hai;
    try (eexists; reflexivity).
  - destruct (@heuristic_answers ai Hai) as [b Hb]. congruence.
  - exfalso.
    match goal with
    | Hb : continuation_body _ _ _ _ = Raise _ _ |- _ =>
        rewrite continuation_body_served in Hb; cbv zeta in Hb;
        destruct (api_chat _ _ _) as [[c|x] sv] eqn:Ha
    end.
    + destruct (truthy (strip c)); discriminate.
    + destruct x as [|a x]; [|discriminate].
      exact (Hraise _ _ _ _ _ Ha eq_refl).
  - match goal with
    | IH : _ -> _ -> exists reply, _ |- _ => apply (IH Hraise)
    end.
    match goal with
    | Hb : continuation_body _ _ _ _ = Next _ _ |- _ =>
        rewrite continuation_body_served in Hb; cbv zeta in Hb;
        destruct (api_chat _ _ _) as [[c|x] sv] eqn:Ha
    end.
    + destruct (strip c) as [|y q] eqn:Ec; [discriminate|].
      cbn [truthy] in *.
      match goal with
      | Hb : Next _ _ = Next _ _ |- _ => injection Hb as <- _
      end.
      left. apply joined_nonblank. rewrite Ec. discriminate.
    + destruct (truthy x); discriminate.
Qed.

(** X11.  [generate_response] raises nothing when every failure of the
    server carries a non-empty text and the first reply, if there is one,
    is not a blank text of 30 characters or more: it returns a string. *)
Theorem x11_returns_without_exception user_input (w : world Server)
        (Hraise : forall sv msgs o e sv',
            api_chat sv msgs o = (Raises e, sv') -> e <> [])
        (Hreply : forall r sv,
            (let rq := primary_request user_input (conversation_history w) in
             api_chat (server w) (fst rq) (snd rq)) = (Replies r, sv) ->
            strip r <> [] \/ len r < 30) :
  exists reply, fst (generate_response api_chat user_input w) = Val reply.
Proof.
  destruct (ollama_available w) eqn:Hav.
  - rewrite generate_response_online by assumption. cbv zeta in *.
    destruct (api_chat _ _ _) as [[r|e] sv] eqn:Ha.
    + match goal with
      | |- context [continuation_loop _ ?rh r 0 ?w1] =>
          destruct (@continuation_loop_returns rh r 0 w1 Hraise
                      (Hreply r sv eq_refl)) as [reply Hr];
          destruct (continuation_loop api_chat rh r 0 w1) as [x w2]
      end.
      cbn [fst] in Hr. subst x. eexists. reflexivity.
    + destruct e as [|a e]; [exfalso; exact (Hraise _ _ _ _ _ Ha eq_refl)|].
      eexists. reflexivity.
  - rewrite generate_response_offline by assumption. eexists. reflexivity.
Qed.

Lemma generate_response_flag user_input (w : world Server) :
  ollama_available (snd (generate_response api_chat user_input w))
  = ollama_available w.
Proof.
  destruct (ollama_available w) eqn:Hav.
  - rewrite generate_response_online by assumption. cbv zeta.
    destruct (api_chat _ _ _) as [[c|e] sv].
    + match goal with
      | |- context [continuation_loop _ ?rh c 0 ?w1] =>
          pose proof (continuation_loop_inv api_chat rh c 0 w1) as Hinv;
          destruct (continuation_loop api_chat rh c 0 w1) as [r w2]
      end.
      cbv zeta in Hinv. cbn [snd] in Hinv. destruct Hinv as (Hf & _).
      destruct r; cbn [snd history_append ollama_available]; rewrite Hf;
        exact Hav.
    + exact Hav.
  - rewrite generate_response_offline by assumption. exact Hav.
Qed.

(** X12.  Once the availability flag is false, no sequence of calls to
    [generate_response] changes anything: the log, the server and the
    requests stay as they are, and the flag stays false (nothing in the
    call retries the connection). *)
Theorem x12_offline_calls_change_nothing inputs (w : world Server)
        (Hoff : ollama_available w = false) :
  run (generate_response api_chat) inputs w = w.
Proof.
  induction inputs as [|i inputs IH]; [reflexivity|].
  unfold run in *. cbn [fold_left].
  rewrite generate_response_offline by assumption. exact IH.
Qed.

(** X13.  No sequence of calls, whatever their outcomes, changes the
    availability flag. *)
Theorem x13_calls_keep_the_flag inputs (w : world Server) :
  ollama_available (run (generate_response api_chat) inputs w)
  = ollama_available w.
Proof.
  revert w. induction inputs as [|i inputs IH]; intros w; [reflexivity|].
  unfold run in *. cbn [fold_left]. rewrite IH.
  apply generate_response_flag.
Qed.

End MoreReplies.

Lemma x7_request_ends_with_input_witness :
  exists front opts later,
    requests (snd (generate_response scripted ANXIOUS
                     (fresh [Replies COMPLETE_REPLY] SEVEN_MESSAGES))) =
    requests (fresh [Replies COMPLETE_REPLY] SEVEN_MESSAGES)
    ++ (front ++ [message role_user
                          (truncate_message ANXIOUS MAX_MESSAGE_CHARS)],
        opts) :: later.
Proof.
  apply (@x7_request_ends_with_input (list chat_outcome) scripted ANXIOUS
           (fresh [Replies COMPLETE_REPLY] SEVEN_MESSAGES)).
  reflexivity.
Defined.

Lemma x8_complete_reply_verbatim_witness :
  generate_response scripted ANXIOUS
                    (fresh [Replies COMPLETE_REPLY] SEVEN_MESSAGES) =
  (Val COMPLETE_REPLY,
   mk_world true
     (SEVEN_MESSAGES
      ++ [message role_user ANXIOUS; message role_assistant COMPLETE_REPLY])
     [] ([] ++ [primary_request ANXIOUS SEVEN_MESSAGES])).
Proof.
  apply (@x8_complete_reply_verbatim (list chat_outcome) scripted ANXIOUS
           (fresh [Replies COMPLETE_REPLY] SEVEN_MESSAGES) COMPLETE_REPLY []).
  - reflexivity.
  - reflexivity.
  - vm_compute. reflexivity.
Defined.

Lemma x9_blank_continuation_stops_witness :
  fst (generate_response scripted ANXIOUS
         (fresh [Replies UNFINISHED_REPLY; Replies (lit "   ")] []))
  = Val UNFINISHED_REPLY.
Proof.
  rewrite (@x9_blank_continuation_stops (list chat_outcome) scripted ANXIOUS
             (fresh [Replies UNFINISHED_REPLY; Replies (lit "   ")] [])
             UNFINISHED_REPLY [Replies (lit "   ")] (lit "   ") []).
  - reflexivity.
  - reflexivity.
  - reflexivity.
  - vm_compute. reflexivity.
  - reflexivity.
  - vm_compute. reflexivity.
Defined.

Lemma x10_blank_reply_raises_witness :
  fst (generate_response scripted ANXIOUS
         (fresh [Replies (repeat 0x0A%N 40)] []))
  = Exn IndexError.
Proof.
  rewrite (@x10_blank_reply_raises (list chat_outcome) scripted ANXIOUS
             (fresh [Replies (repeat 0x0A%N 40)] [])
             (repeat 0x0A%N 40) []).
  - reflexivity.
  - reflexivity.
  - reflexivity.
  - vm_compute. discriminate.
  - vm_compute. reflexivity.
Defined.

Lemma x11_returns_without_exception_witness :
  exists reply,
    fst (generate_response (one_shot UNFINISHED_REPLY) ANXIOUS
           (mk_world true SEVEN_MESSAGES true [])) = Val reply.
Proof.
  apply (@x11_returns_without_exception bool (one_shot UNFINISHED_REPLY)
           ANXIOUS (mk_world true SEVEN_MESSAGES true [])).
  - intros sv msgs o e sv' H. destruct sv; cbn in H.
    + discriminate H.
    + injection H as <- _. discriminate.
  - intros r sv H. cbn in H. injection H as <- _.
    left. vm_compute. discriminate.
Defined.

Lemma x12_offline_calls_change_nothing_witness :
  run (generate_response scripted) [ANXIOUS; lit "Are you there?"]
      (mk_world false SEVEN_MESSAGES [Replies COMPLETE_REPLY] [])
  = mk_world false SEVEN_MESSAGES [Replies COMPLETE_REPLY] [].
Proof.
  apply (@x12_offline_calls_change_nothing (list chat_outcome) scripted
           [ANXIOUS; lit "Are you there?"]
           (mk_world false SEVEN_MESSAGES [Replies COMPLETE_REPLY] [])).
  reflexivity.
Defined.

(* ===================================================================== *)
(** * The options sent with a request *)
(* ===================================================================== *)

Lemma opt_get_set_same (k : string) (v : Q) (o : options) :
  opt_get k (opt_set k v o) = Some v.
Proof.
  induction o as [|[k' v'] o IH]; cbn [opt_set opt_get].
  - rewrite String.eqb_refl. reflexivity.
  - destruct (String.eqb k' k) eqn:E; cbn [opt_get]; rewrite E;
      [reflexivity | exact IH].
Qed.

Lemma opt_get_set_other (k k' : string) (v : Q) (o : options) :
  k' <> k -> opt_get k (opt_set k' v o) = opt_get k o.
Proof.
  intros Hk. induction o as [|[k0 v0] o IH]; cbn [opt_set opt_get].
  - destruct (String.eqb_spec k' k); [contradiction | reflexivity].
  - destruct (String.eqb_spec k0 k') as [->|Hn]; cbn [opt_get].
    + destruct (String.eqb_spec k' k); [contradiction | reflexivity].
    + destruct (String.eqb_spec k0 k); [reflexivity | exact IH].
Qed.

Lemma opt_mem_get (k : string) (o : options) :
  opt_mem k o = match opt_get k o with Some _ => true | None => false end.
Proof.
  unfold opt_mem. induction o as [|[k' v'] o IH]; [reflexivity|].
  cbn [existsb opt_get fst]. destruct (String.eqb k' k); [reflexivity | exact IH].
Qed.

(** The last binding of [k] in [u] wins over the dictionary updated. *)
Lemma opt_get_update (k : string) (u o : options) :
  opt_get k (opt_update o u) =
  match opt_get k (rev u) with
  | Some v => Some v
  | None => opt_get k o
  end.
Proof.
  unfold opt_update. revert o.
  induction u as [|[k' v'] u IH] using rev_ind; intros o; [reflexivity|].
  rewrite fold_left_app, rev_unit. cbn [fold_left fst snd opt_get].
  destruct (String.eqb_spec k' k) as [->|Hn].
  - apply opt_get_set_same.
  - rewrite opt_get_set_other by assumption. apply IH.
Qed.

(** X14.  The options [ollama_chat] sends, key by key: the value the
    caller gave for the key, if any; otherwise 120 for [num_predict] and
    the base value for the other keys.  So the caller's options override
    the base ones and [num_predict] is always present. *)
Theorem x14_options_sent (opts : option options) (k : string) :
  opt_get k (chat_options opts) =
  match (match opts with
         | Some o => opt_get k (rev o)
         | None => None
         end) with
  | Some v => Some v
  | None =>
      if String.eqb k "num_predict" then Some (inject_Z FAST_CHAT_TOKENS)
      else opt_get k OLLAMA_BASE_OPTIONS
  end.
Proof.
  unfold chat_options. cbv zeta.
  set (merged := match opts with
                 | Some ((_ :: _) as o) => opt_update OLLAMA_BASE_OPTIONS o
                 | _ => OLLAMA_BASE_OPTIONS
                 end).
  assert (Hm : forall k', opt_get k' merged =
                          match (match opts with
                                 | Some o => opt_get k' (rev o)
                                 | None => None
                                 end) with
                          | Some v => Some v
                          | None => opt_get k' OLLAMA_BASE_OPTIONS
                          end).
  { intros k'. subst merged. destruct opts as [[|b o]|]; try reflexivity.
    apply opt_get_update. }
  rewrite opt_mem_get, (Hm "num_predict"%string).
  destruct (String.eqb_spec k "num_predict") as [->|Hk].
  - destruct (match opts with Some o => opt_get "num_predict" (rev o) | None => None end)
      as [v|] eqn:E.
    + cbn [negb]. rewrite Hm, E. reflexivity.
    + change (opt_get "num_predict" OLLAMA_BASE_OPTIONS) with (@None Q).
      cbn [negb]. apply opt_get_set_same.
  - destruct (match opts with Some o => opt_get "num_predict" (rev o) | None => None end)
      as [v|] eqn:E.
    + cbn [negb]. apply Hm.
    + change (opt_get "num_predict" OLLAMA_BASE_OPTIONS) with (@None Q).
      cbn [negb]. rewrite opt_get_set_other by congruence. apply Hm.
Qed.

(* ===================================================================== *)
(** * The tools *)
(* ===================================================================== *)

(** The request the affirmation button sends. *)
Lemma affirmation_request_options :
  chat_options (Some [("num_predict", inject_Z MAX_AFFIRMATION_TOKENS);
                      ("temperature", 5 # 10)]%string)
  = [("num_ctx", inject_Z 2048); ("temperature", 5 # 10); ("top_p", 9 # 10);
     ("mirostat", inject_Z 0); ("num_predict", inject_Z 60)]%string.
Proof. reflexivity. Qed.

Section ToolProperties.

Variable Server : Type.
Variable api_chat :
  Server -> list dict -> option options -> chat_outcome * Server.

(** [generate_affirmation], by what the server does with its request. *)
Lemma generate_affirmation_served (a : app_state Server) :
  generate_affirmation api_chat a =
  let rq := ([message role_user AFFIRMATION_PROMPT],
             Some (chat_options
                     (Some [("num_predict", inject_Z MAX_AFFIRMATION_TOKENS);
                            ("temperature", 5 # 10)]%string))) in
  let counted sv :=
    mk_app (served (chat a) rq sv)
           (mk_progress (sessions (badge a)) (affirmations (badge a) + 1)
                        (journals (badge a)))
           (journal_entries a) (journal_file a) in
  match api_chat (server (chat a)) (fst rq) (snd rq) with
  | (Replies c, sv) => (Val c, counted sv)
  | (Raises [], sv) => (Exn KeyError, counted sv)
  | (Raises (_ :: _), sv) =>
      (Val (lit "Could not generate affirmation right now."),
       mk_app (served (chat a) rq sv) (badge a) (journal_entries a)
              (journal_file a))
  end.
Proof.
  unfold generate_affirmation. cbv zeta. rewrite ollama_chat_served.
  cbv zeta. cbn [fst snd].
  destruct (api_chat _ _ _) as [[c|[|x e]] sv]; reflexivity.
Qed.

(** X15.  The affirmation button sends its one request whatever the
    availability flag says.  When the server answers, the text is
    returned and the affirmation counter grows by one; when it fails with
    an error text, the fixed apology is returned and the counters are as
    before.  Either way the conversation log is untouched. *)
Theorem x15_affirmation_outcomes (a : app_state Server) o sv
        (Hsent : api_chat (server (chat a))
                          [message role_user AFFIRMATION_PROMPT]
                          (Some (chat_options
                                   (Some [("num_predict",
                                           inject_Z MAX_AFFIRMATION_TOKENS);
                                          ("temperature", 5 # 10)]%string)))
                 = (o, sv))
        (Htext : o <> Raises []) :
  let a' := snd (generate_affirmation api_chat a) in
  fst (generate_affirmation api_chat a) =
  Val (match o with
       | Replies c => c
       | Raises _ => lit "Could not generate affirmation right now."
       end) /\
  affirmations (badge a') =
  affirmations (badge a) + (match o with Replies _ => 1 | Raises _ => 0 end) /\
  sessions (badge a') = sessions (badge a) /\
  journals (badge a') = journals (badge a) /\
  conversation_history (chat a') = conversation_history (chat a) /\
  length (requests (chat a')) = S (length (requests (chat a))).
Proof.
  cbv zeta. rewrite generate_affirmation_served. cbv zeta. cbn [fst snd].
  rewrite Hsent. destruct o as [c|[|x e]]; [|contradiction|];
    cbn [fst snd badge chat affirmations sessions journals served
         conversation_history requests];
    rewrite length_app; cbn [length]; repeat split; lia.
Qed.

(** X16.  When the request of the affirmation button fails with an
    exception whose text is empty, [KeyError] is raised out of
    [generate_affirmation], after the affirmation counter has grown by
    one: an affirmation is counted that was never produced. *)
Theorem x16_affirmation_counted_on_empty_error (a : app_state Server) sv
        (Hsent : api_chat (server (chat a))
                          [message role_user AFFIRMATION_PROMPT]
                          (Some (chat_options
                                   (Some [("num_predict",
                                           inject_Z MAX_AFFIRMATION_TOKENS);
                                          ("temperature", 5 # 10)]%string)))
                 = (Raises [], sv)) :
  fst (generate_affirmation api_chat a) = Exn KeyError /\
  affirmations (badge (snd (generate_affirmation api_chat a)))
  = affirmations (badge a) + 1.
Proof.
  rewrite generate_affirmation_served. cbv zeta. cbn [fst snd].
  rewrite Hsent. split; reflexivity.
Qed.

Lemma affirmation_presses_answered n (a : app_state Server) :
  (forall sv msgs o, exists c sv', api_chat sv msgs o = (Replies c, sv')) ->
  let a' := affirmation_presses api_chat n a in
  affirmations (badge a') = affirmations (badge a) + Z.of_nat n /\
  sessions (badge a') = sessions (badge a) /\
  journals (badge a') = journals (badge a).
Proof.
  intros Hup. revert a. induction n as [|n IH]; intros a; cbv zeta.
  - cbn [affirmation_presses]. repeat split; lia.
  - cbn [affirmation_presses].
    destruct (IH (snd (generate_affirmation api_chat a))) as (Ha & Hs & Hj).
    rewrite Ha, Hs, Hj. rewrite generate_affirmation_served. cbv zeta.
    cbn [fst snd].
    destruct (Hup (server (chat a)) [message role_user AFFIRMATION_PROMPT]
                  (Some (chat_options
                           (Some [("num_predict",
                                   inject_Z MAX_AFFIRMATION_TOKENS);
                                  ("temperature", 5 # 10)]%string))))
      as (c & sv' & E).
    rewrite E. cbn [snd badge affirmations sessions journals].
    repeat split; lia.
Qed.

(** X17.  With a server that answers every request, [n] presses of the
    affirmation button add exactly [n] to the affirmation counter and
    leave the two other counters alone; once the counter has reached 5,
    [get_badges] lists the Positive Soul badge. *)
Theorem x17_affirmations_earn_badge n (a : app_state Server)
        (Hup : forall sv msgs o,
            exists c sv', api_chat sv msgs o = (Replies c, sv'))
        (Hfive : 5 <= affirmations (badge a) + Z.of_nat n) :
  let a' := affirmation_presses api_chat n a in
  affirmations (badge a') = affirmations (badge a) + Z.of_nat n /\
  sessions (badge a') = sessions (badge a) /\
  journals (badge a') = journals (badge a) /\
  In BADGE_POSITIVE (get_badges (badge a')).
Proof.
  cbv zeta. destruct (@affirmation_presses_answered n a Hup) as (Ha & Hs & Hj).
  cbv zeta in Ha, Hs, Hj. repeat split; try assumption.
  unfold get_badges. cbv zeta. rewrite Ha.
  destruct (Z.leb_spec 5 (affirmations (badge a) + Z.of_nat n)); [|lia].
  destruct (3 <=? sessions _); destruct (3 <=? journals _);
    cbn [List.app]; auto with datatypes.
Qed.

(** X18.  The prompt of the CBT tool carries at most 600 characters of the
    user's thought: the one request sent holds one user message of at most
    765 characters, however long the thought, and the thought unchanged
    when it has at most 600 characters. *)
Theorem x18_cbt_prompt_bounded (thought : str) (a : app_state Server) :
  exists prompt opts,
    requests (chat (snd (cbt_fix api_chat thought a))) =
    requests (chat a) ++ [([message role_user prompt], opts)] /\
    len prompt <= 765 /\
    (len thought <= 600 ->
     prompt = CBT_PROMPT_HEAD ++ thought ++ CBT_PROMPT_TAIL).
Proof.
  exists (CBT_PROMPT_HEAD ++ truncate_message thought 600 ++ CBT_PROMPT_TAIL).
  eexists. split; [|split].
  - unfold cbt_fix. cbv zeta. rewrite ollama_chat_served. cbv zeta.
    destruct (api_chat _ _ _) as [[c|e] sv]; cbn [is_error];
      [|destruct (truthy e)]; reflexivity.
  - rewrite !len_app.
    assert (H : len (truncate_message thought 600) <= 600)
      by (apply truncate_message_bound; lia).
    change (len CBT_PROMPT_HEAD) with 52.
    change (len CBT_PROMPT_TAIL) with 113. lia.
  - intros H. unfold truncate_message.
    destruct (Z.leb_spec (len thought) 600); [reflexivity | lia].
Qed.

End ToolProperties.

Lemma x15_affirmation_outcomes_witness :
  fst (generate_affirmation scripted
         (mk_app (mk_world false [] [Replies (lit "You are enough.")] [])
                 (mk_progress 0 4 0) [] NoFile))
  = Val (lit "You are enough.").
Proof.
  apply (@x15_affirmation_outcomes (list chat_outcome) scripted
           (mk_app (mk_world false [] [Replies (lit "You are enough.")] [])
                   (mk_progress 0 4 0) [] NoFile)
           (Replies (lit "You are enough.")) []).
  - reflexivity.
  - discriminate.
Defined.

Lemma x16_affirmation_counted_on_empty_error_witness :
  fst (generate_affirmation scripted
         (mk_app (fresh [Raises []] []) (mk_progress 0 4 0) [] NoFile))
  = Exn KeyError /\
  affirmations
    (badge (snd (generate_affirmation scripted
                   (mk_app (fresh [Raises []] []) (mk_progress 0 4 0) []
                           NoFile))))
  = 4 + 1.
Proof.
  apply (@x16_affirmation_counted_on_empty_error (list chat_outcome) scripted
           (mk_app (fresh [Raises []] []) (mk_progress 0 4 0) [] NoFile) []).
  reflexivity.
Defined.

Lemma x17_affirmations_earn_badge_witness :
  In BADGE_POSITIVE
     (get_badges
        (badge (affirmation_presses
                  (fun (sv : unit) (_ : list dict) (_ : option options) =>
                     (Replies (lit "You are enough."), sv))
                  5
                  (mk_app (mk_world true [] tt []) (mk_progress 0 0 0) []
                          NoFile)))).
Proof.
  apply (@x17_affirmations_earn_badge unit
           (fun (sv : unit) (_ : list dict) (_ : option options) =>
              (Replies (lit "You are enough."), sv))
           5
           (mk_app (mk_world true [] tt []) (mk_progress 0 0 0) [] NoFile)).
  - intros sv msgs o. exists (lit "You are enough."), sv. reflexivity.
  - cbn. lia.
Defined.

(* ===================================================================== *)
(** * Badges and the journal *)
(* ===================================================================== *)

(** X19.  Badges are never lost as the counters grow: every badge listed
    for some counters is listed for any counters at least as large; and
    the list has at most three badges. *)
Theorem x19_badges_monotone (p q : badge_progress) (b : str)
        (Hs : sessions p <= sessions q)
        (Ha : affirmations p <= affirmations q)
        (Hj : journals p <= journals q)
        (Hb : In b (get_badges p)) :
  In b (get_badges q) /\ (length (get_badges q) <= 3)%nat.
Proof.
  unfold get_badges in *. cbv zeta in *.
  destruct (Z.leb_spec 3 (sessions p)), (Z.leb_spec 5 (affirmations p)),
    (Z.leb_spec 3 (journals p)),
    (Z.leb_spec 3 (sessions q)), (Z.leb_spec 5 (affirmations q)),
    (Z.leb_spec 3 (journals q)); try lia;
    cbn [List.app In length] in *; split; (lia || tauto).
Qed.

Lemma x19_badges_monotone_witness :
  In BADGE_CALM (get_badges (mk_progress 7 5 0)) /\
  (length (get_badges (mk_progress 7 5 0)) <= 3)%nat.
Proof.
  apply (@x19_badges_monotone (mk_progress 3 0 0) (mk_progress 7 5 0) BADGE_CALM).
  - cbn. lia.
  - cbn. lia.
  - cbn. lia.
  - cbn. left. reflexivity.
Defined.

Lemma save_all_snoc {Server} saves s (a : app_state Server) :
  save_all (saves ++ [s]) a = save_journal (fst s) (snd s) (save_all saves a).
Proof. unfold save_all. rewrite fold_left_app. reflexivity. Qed.

Lemma save_all_state {Server} saves (a : app_state Server) :
  let a' := save_all saves a in
  journal_entries a' =
  journal_entries a ++ map (fun s => mk_entry (fst s) (snd s)) saves /\
  journals (badge a') = journals (badge a) + len saves /\
  sessions (badge a') = sessions (badge a) /\
  affirmations (badge a') = affirmations (badge a) /\
  chat a' = chat a /\
  (saves <> [] -> journal_file a' = Dumped (journal_entries a')).
Proof.
  cbv zeta. induction saves as [|s saves IH] using rev_ind.
  - cbn. rewrite app_nil_r. repeat split; try lia. intros H; contradiction.
  - rewrite save_all_snoc. destruct IH as (He & Hj & Hs & Ha & Hc & _).
    unfold save_journal, save_journals. cbv zeta.
    cbn [journal_entries badge chat journal_file journals sessions affirmations].
    rewrite He, Hj, Hs, Ha, Hc, map_app, len_app, app_assoc.
    change (len [s]) with 1. cbn [map].
    repeat split; try lia. 
Qed.

(** X20.  Saving journal entries one after the other appends them to the
    journal in the order saved, each with the clock's reading of its
    save, adds their number to the journal counter, touches neither the
    other counters nor the chat, and leaves in the file the complete
    journal, so that [load_journals] gives back the journal in memory. *)
Theorem x20_journal_saves {Server} (saves : list (str * str)) (a : app_state Server)
        (Hsome : saves <> []) :
  let a' := save_all saves a in
  journal_entries a' =
  journal_entries a ++ map (fun s => mk_entry (fst s) (snd s)) saves /\
  journals (badge a') = journals (badge a) + len saves /\
  sessions (badge a') = sessions (badge a) /\
  affirmations (badge a') = affirmations (badge a) /\
  chat a' = chat a /\
  load_journals (journal_file a') = journal_entries a'.
Proof.
  cbv zeta. destruct (save_all_state saves a) as (He & Hj & Hs & Ha & Hc & Hf).
  repeat split; try assumption. rewrite (Hf Hsome). reflexivity.
Qed.

Lemma x20_journal_saves_witness :
  journal_entries
    (save_all [(lit "2024-05-01 09:30", lit "Slept well.");
               (lit "2024-05-02 21:10", lit "Long day.")]
              (mk_app (fresh [] []) (mk_progress 0 0 0)
                      [mk_entry (lit "2024-04-30 08:00") (lit "First.")]
                      Unreadable))
  = [mk_entry (lit "2024-04-30 08:00") (lit "First.")]
    ++ map (fun s => mk_entry (fst s) (snd s))
           [(lit "2024-05-01 09:30", lit "Slept well.");
            (lit "2024-05-02 21:10", lit "Long day.")].
Proof.
  apply (@x20_journal_saves (list chat_outcome)
           [(lit "2024-05-01 09:30", lit "Slept well.");
            (lit "2024-05-02 21:10", lit "Long day.")]
           (mk_app (fresh [] []) (mk_progress 0 0 0)
                   [mk_entry (lit "2024-04-30 08:00") (lit "First.")]
                   Unreadable)).
  discriminate.
Defined.

(* ===================================================================== *)
(** * The other variants *)
(* ===================================================================== *)

Section Variants.

Variable Server : Type.
Variable api_chat :
  Server -> list dict -> option options -> chat_outcome * Server.

(** X21.  [advanced.py]: whatever text the server answers, finished or
    not, blank or not, it is returned as it is and recorded after the
    user's message, after one request; that request carries no options and
    ends with the user's message whole, of any length. *)
Theorem x21_advanced_reply_verbatim user_input (w : world Server) r sv
        (Hav : ollama_available w = true)
        (Hp : let rq := advanced_request user_input (conversation_history w) in
              api_chat (server w) (fst rq) (snd rq) = (Replies r, sv)) :
  Advanced.generate_response api_chat user_input w =
  (Val r,
   mk_world true
     (conversation_history w
      ++ [message role_user user_input; message role_assistant r])
     sv
     (requests w ++ [advanced_request user_input (conversation_history w)])) /\
  snd (advanced_request user_input (conversation_history w)) = None /\
  exists front,
    fst (advanced_request user_input (conversation_history w))
    = front ++ [message role_user user_input].
Proof.
  cbv zeta in Hp. split; [|split; [reflexivity|]].
  - unfold Advanced.generate_response, Advanced.ollama_chat.
    rewrite Hav. cbn [negb]. cbv zeta.
    unfold advanced_request in Hp. cbn [fst snd] in Hp.
    cbn [history_append server conversation_history]. rewrite Hp.
    cbn [is_error message_content]. unfold served, history_append, advanced_request.
    cbn [ollama_available conversation_history server requests].
    rewrite Hav, <- app_assoc. reflexivity.
  - unfold advanced_request. cbn [fst].
    set (l := conversation_history w ++ [message role_user user_input]).
    destruct (Z.le_gt_cases (len l) MAX_CHAT_CONTEXT_HISTORY) as [H|H].
    + rewrite slice_from_short by assumption. eexists. reflexivity.
    + unfold MAX_CHAT_CONTEXT_HISTORY in *. rewrite slice_from_last by lia.
      subst l. rewrite len_app in H. change (len [message role_user user_input])
        with 1 in H. unfold len in H.
      rewrite length_app. cbn [length]. rewrite skipn_app.
      replace (length (conversation_history w) + 1 - Z.to_nat 6
               - length (conversation_history w))%nat with 0%nat by lia.
      cbn [skipn]. eexists. reflexivity.
Qed.

(** X22.  [nayana.py]: a call made while the server is believed available
    sends the whole log, the new message included and without options,
    and raises nothing: an answer is returned and recorded after the
    user's message, a failure is returned as a sentence carrying its text
    (also an empty one) and only the user's message is recorded. *)
Theorem x22_nayana_whole_log user_input (w : world Server) o sv
        (Hav : ollama_available w = true)
        (Hp : api_chat (server w)
                       (conversation_history w ++ [message role_user user_input])
                       None = (o, sv)) :
  Nayana.generate_response api_chat user_input w =
  (Val (match o with
        | Replies r => r
        | Raises e => lit "An error occurred during response generation: " ++ e
        end),
   mk_world true
     (conversation_history w ++ [message role_user user_input]
      ++ match o with
         | Replies r => [message role_assistant r]
         | Raises _ => []
         end)
     sv
     (requests w
      ++ [(conversation_history w ++ [message role_user user_input], None)])).
Proof.
  unfold Nayana.generate_response. rewrite Hav. cbn [negb]. cbv zeta.
  cbn [history_append server conversation_history]. rewrite Hp.
  unfold served, history_append.
  cbn [ollama_available conversation_history server requests].
  rewrite Hav. destruct o as [r|e].
  - rewrite <- app_assoc. reflexivity.
  - rewrite app_nil_r. reflexivity.
Qed.

End Variants.

Lemma x21_advanced_reply_verbatim_witness :
  fst (Advanced.generate_response scripted ANXIOUS
         (fresh [Replies UNFINISHED_REPLY] SEVEN_MESSAGES))
  = Val UNFINISHED_REPLY.
Proof.
  rewrite (proj1 (@x21_advanced_reply_verbatim (list chat_outcome) scripted
                    ANXIOUS (fresh [Replies UNFINISHED_REPLY] SEVEN_MESSAGES)
                    UNFINISHED_REPLY [] eq_refl eq_refl)).
  reflexivity.
Defined.

Lemma x22_nayana_whole_log_witness :
  fst (Nayana.generate_response scripted ANXIOUS
         (fresh [Raises []] SEVEN_MESSAGES))
  = Val (lit "An error occurred during response generation: " ++ []).
Proof.
  rewrite (@x22_nayana_whole_log (list chat_outcome) scripted ANXIOUS
             (fresh [Raises []] SEVEN_MESSAGES) (Raises []) [] eq_refl eq_refl).
  reflexivity.
Defined.

(* ===================================================================== *)
(** * Emotion detection *)
(* ===================================================================== *)

Lemma scan_labels_closed (labels : list str) (token : str) :
  scan_labels labels token = lit "neutral" \/ In (scan_labels labels token) labels.
Proof.
  induction labels as [|e labels IH]; [left; reflexivity|].
  cbn [scan_labels]. destruct (contains e token).
  - right. left. reflexivity.
  - destruct IH as [IH|IH]; [left; exact IH | right; right; exact IH].
Qed.

Section ClassifierProperties.

Variable Server : Type.
Variable api_chat :
  Server -> list dict -> option options -> chat_outcome * Server.
Variable value : Type.
Variable of_str : str -> value.
Variable json_emotion : str -> option value.
Variable lower : str -> str.

Lemma detect_emotion_world user_text (w : world Server) :
  exists sv,
    snd (detect_emotion api_chat of_str json_emotion lower user_text w)
    = served w (emotion_request user_text) sv.
Proof.
  unfold detect_emotion. cbv zeta. rewrite ollama_chat_served. cbv zeta.
  destruct (api_chat _ _ _) as [[c|e] sv]; exists sv;
    cbn [is_error message_content].
  - destruct (match brace_match (strip c) with
              | Some json_str => json_emotion json_str
              | None => None
              end); reflexivity.
  - destruct (truthy e); reflexivity.
Qed.

(** X23.  When the classifier's request is answered with an empty or
    blank text, [IndexError] is raised out of [detect_emotion]: the
    fallback indexes the first line of a text that has none. *)
Theorem x23_blank_label_raises user_text (w : world Server) c sv
        (Hp : let rq := emotion_request user_text in
              api_chat (server w) (fst rq) (snd rq) = (Replies c, sv))
        (Hblank : strip c = []) :
  detect_emotion api_chat of_str json_emotion lower user_text w =
  (Exn IndexError, served w (emotion_request user_text) sv).
Proof.
  cbv zeta in Hp. unfold emotion_request in Hp. cbn [fst snd] in Hp.
  unfold detect_emotion. cbv zeta. rewrite ollama_chat_served. cbv zeta.
  rewrite Hp. cbn [is_error message_content]. rewrite Hblank. reflexivity.
Qed.

(** X24.  When the answer is not blank and holds no brace pair that reads
    as JSON with a usable value, the label returned is one of the eight
    labels of the list, whatever the answer says. *)
Theorem x24_fallback_label_is_listed user_text (w : world Server) c sv
        (Hp : let rq := emotion_request user_text in
              api_chat (server w) (fst rq) (snd rq) = (Replies c, sv))
        (Htext : strip c <> [])
        (Hjson : forall json_str,
            brace_match (strip c) = Some json_str ->
            json_emotion json_str = None) :
  exists label,
    In label EMOTIONS /\
    detect_emotion api_chat of_str json_emotion lower user_text w =
    (Val (of_str label), served w (emotion_request user_text) sv).
Proof.
  cbv zeta in Hp. unfold emotion_request in Hp. cbn [fst snd] in Hp.
  unfold detect_emotion. cbv zeta. rewrite ollama_chat_served. cbv zeta.
  rewrite Hp. cbn [is_error message_content].
  assert (E : match brace_match (strip c) with
              | Some json_str => json_emotion json_str
              | None => None
              end = None).
  { destruct (brace_match (strip c)) as [js|]; [apply Hjson|]; reflexivity. }
  rewrite E. destruct (strip c) as [|x s] eqn:Es; [contradiction|].
  cbn [first_line bind].
  eexists. split; [|reflexivity].
  destruct (scan_labels_closed EMOTIONS
              (lower (strip (until_linebreak (x :: s))))) as [H|H].
  - rewrite H. cbn. tauto.
  - exact H.
Qed.

(** X25.  A message submitted in the chat tab while the availability flag
    is false still sends one request, the classifier's: the session
    counter grows by one, the log is as before, and when the classifier
    returns a label the reply shown is the offline notice. *)
Theorem x25_offline_submit_still_classifies user_message (a : app_state Server)
        (Hmsg : user_message <> [])
        (Hoff : ollama_available (chat a) = false) :
  let out := chat_submit api_chat of_str json_emotion lower user_message a in
  (exists sv,
      chat (snd out) = served (chat a) (emotion_request user_message) sv) /\
  sessions (badge (snd out)) = sessions (badge a) + 1 /\
  (forall v,
      fst (detect_emotion api_chat of_str json_emotion lower user_message
                          (chat a)) = Val v ->
      fst out = Val (Some (v, OFFLINE_NOTICE))).
Proof.
  cbv zeta. unfold chat_submit. cbv zeta. cbn [chat badge].
  destruct user_message as [|x m] eqn:Em; [contradiction|].
  cbn [truthy]. rewrite <- Em. clear Em Hmsg.
  destruct (detect_emotion_world user_message (chat a)) as [sv Hw].
  destruct (detect_emotion api_chat of_str json_emotion lower user_message
                           (chat a)) as [[v|e] w1].
  - cbn [snd fst] in *. subst w1.
    rewrite generate_response_offline by exact Hoff.
    cbn [fst snd with_chat chat badge sessions].
    split; [exists sv; reflexivity | split; [reflexivity|]].
    intros v' E. injection E as <-. reflexivity.
  - cbn [snd fst] in *. subst w1.
    cbn [with_chat chat badge sessions].
    split; [exists sv; reflexivity | split; [reflexivity|]].
    intros v' E. discriminate E.
Qed.

End ClassifierProperties.

Lemma x23_blank_label_raises_witness :
  fst (detect_emotion scripted (fun s : str => s) (fun _ : str => None)
                      ascii_lower ANXIOUS (fresh [Replies []] []))
  = Exn IndexError.
Proof.
  rewrite (@x23_blank_label_raises (list chat_outcome) scripted str
             (fun s : str => s) (fun _ : str => None) ascii_lower
             ANXIOUS (fresh [Replies []] []) [] [] eq_refl eq_refl).
  reflexivity.
Defined.

Lemma x24_fallback_label_is_listed_witness :
  exists label,
    In label EMOTIONS /\
    detect_emotion scripted (fun s : str => s) (fun _ : str => None)
                   ascii_lower ANXIOUS
                   (fresh [Replies (lit "Anxious, I would say.")] [])
    = (Val label,
       served (fresh [Replies (lit "Anxious, I would say.")] [])
              (emotion_request ANXIOUS) []).
Proof.
  apply (@x24_fallback_label_is_listed (list chat_outcome) scripted str
           (fun s : str => s) (fun _ : str => None) ascii_lower
           ANXIOUS (fresh [Replies (lit "Anxious, I would say.")] [])
           (lit "Anxious, I would say.") []).
  - reflexivity.
  - vm_compute. discriminate.
  - intros json_str _. reflexivity.
Defined.

Lemma x25_offline_submit_still_classifies_witness :
  sessions
    (badge (snd (chat_submit scripted (fun s : str => s) (fun _ : str => None)
                             ascii_lower ANXIOUS
                             (mk_app (mk_world false []
                                               [Replies (lit "anxious")] [])
                                     (mk_progress 2 0 0) [] NoFile))))
  = 2 + 1.
Proof.
  apply (@x25_offline_submit_still_classifies (list chat_outcome) scripted str
           (fun s : str => s) (fun _ : str => None) ascii_lower ANXIOUS
           (mk_app (mk_world false [] [Replies (lit "anxious")] [])
                   (mk_progress 2 0 0) [] NoFile)).
  - discriminate.
  - reflexivity.
Defined.

(* ===================================================================== *)
(** * The heuristic and the loop, in general *)
(* ===================================================================== *)

(** X26.  On a text of at least 30 characters that is not blank, the
    heuristic answers, and its answer depends on the stripped text alone:
    true when it ends with three full stops or with U+2026, otherwise true
    exactly when its last character is none of the full stop, the
    exclamation and question marks, the two ASCII quotes, U+201D and the
    three closing brackets. *)
Theorem x26_heuristic_on_long_text (text p : str) (c : char)
        (Hlen : 30 <= len text)
        (Hstrip : strip text = p ++ [c]) :
  _is_likely_truncated text =
  Val (endswith (p ++ [c]) (lit "...") || endswith (p ++ [c]) [0x2026%N] ||
       negb (char_in c (lit ".!?" ++ [0x22; 0x27; 0x201D]%N ++ lit ")]}"))).
Proof.
  rewrite (is_likely_truncated_spec text p c Hlen Hstrip).
  f_equal. f_equal. unfold char_in. rewrite !existsb_app, !negb_orb.
  rewrite andb_assoc. reflexivity.
Qed.

Lemma x26_heuristic_on_long_text_witness :
  _is_likely_truncated (COMPLETE_REPLY ++ lit "  ") = Val false.
Proof.
  rewrite (@x26_heuristic_on_long_text (COMPLETE_REPLY ++ lit "  ")
             (removelast COMPLETE_REPLY) 0x2E%N).
  - vm_compute. reflexivity.
  - vm_compute. discriminate.
  - vm_compute. reflexivity.
Defined.

Section LoopInGeneral.

Variable Server : Type.
Variable api_chat :
  Server -> list dict -> option options -> chat_outcome * Server.

(** X27.  When the reply looks truncated and the continuation request
    fails with an error text, the failure is absorbed: the first reply is
    returned and recorded as the assistant's message, after two requests,
    and nothing is raised. *)
Theorem x27_continuation_failure_with_text user_input (w : world Server)
        r sv1 e sv2
        (Hav : ollama_available w = true)
        (Hp : let rq := primary_request user_input (conversation_history w) in
              api_chat (server w) (fst rq) (snd rq) = (Replies r, sv1))
        (Hcut : _is_likely_truncated r = Val true)
        (Hc : let rq := continuation_request
                          (fst (primary_request user_input
                                                (conversation_history w))) in
              api_chat sv1 (fst rq) (snd rq) = (Raises e, sv2))
        (He : e <> []) :
  generate_response api_chat user_input w =
  (Val r,
   mk_world true
     (conversation_history w
      ++ [message role_user user_input; message role_assistant r])
     sv2
     (requests w
      ++ [primary_request user_input (conversation_history w);
          continuation_request
            (fst (primary_request user_input (conversation_history w)))])).
Proof.
  exact (@continuation_failure_absorbed Server api_chat user_input w r sv1 e sv2
           Hav Hp Hcut Hc He).
Qed.

(** X28.  Whatever the outcomes of a sequence of calls (answers, failures,
    exceptions), the log before is a prefix of the log after: no call
    removes or changes an entry. *)
Theorem x28_log_only_grows inputs (w : world Server) :
  exists added,
    conversation_history (run (generate_response api_chat) inputs w) =
    conversation_history w ++ added.
Proof. apply run_extends. Qed.

End LoopInGeneral.

Lemma x27_continuation_failure_with_text_witness :
  fst (generate_response scripted ANXIOUS
         (fresh [Replies UNFINISHED_REPLY; Raises (lit "timed out")] []))
  = Val UNFINISHED_REPLY.
Proof.
  rewrite (@x27_continuation_failure_with_text (list chat_outcome) scripted
             ANXIOUS
             (fresh [Replies UNFINISHED_REPLY; Raises (lit "timed out")] [])
             UNFINISHED_REPLY [Raises (lit "timed out")] (lit "timed out") []).
  - reflexivity.
  - reflexivity.
  - reflexivity.
  - vm_compute. reflexivity.
  - reflexivity.
  - discriminate.
Defined.
